(** * Subscription lifecycle of the AI content generator backend

    A shallow embedding of the Express handlers that create and capture
    PayPal orders, reconcile webhooks, report the subscription and gate
    content generation (routes/payment, routes/content, middleware/auth,
    utils/paypalApi, models/User, models/Content), followed by the
    properties of the subscription state machine.

    Conventions.
    - A nullable String path of a document or of a request body is an
      [option string]; [None] stands for both [null] and [undefined].
    - A Date is its epoch time in milliseconds, a Number an integer.
    - The Mongo collections are lists of documents in natural order
      ([findOne] returns the first match); the store itself never fails.
    - Calls that leave the process (PayPal, Gemini) are answered by
      oracles kept in the environment of a request. *)

From Stdlib Require Import String Ascii List ZArith Bool Lia DecimalString.
Import ListNotations.
Local Open Scope string_scope.
Local Open Scope Z_scope.

(** ** JavaScript values *)

Module Js.

  (** [!!s] for a nullable string: [null], [undefined] and [''] are falsy. *)
Definition truthy (s : option string) : bool :=
    match s with
    | Some v => negb (String.eqb v "")
    | None => false
    end.

  (** [s || d] *)
Definition or_else (s : option string) (d : string) : string :=
    match s with
    | Some v => if String.eqb v "" then d else v
    | None => d
    end.

  (** [s === lit] for a string literal [lit] *)
Definition is_lit (s : option string) (lit : string) : bool :=
    match s with
    | Some v => String.eqb v lit
    | None => false
    end.

  (** [a === b] on nullable strings *)
Definition strict_eq (a b : option string) : bool :=
    match a, b with
    | Some x, Some y => String.eqb x y
    | None, None => true
    | _, _ => false
    end.

  (** [list.includes(s)] for a list of string literals *)
Definition one_of (l : list string) (s : option string) : bool :=
    existsb (is_lit s) l.

  (** [s.startsWith(p)] *)
Definition startsWith (s p : string) : bool := String.prefix p s.

  (** [s.includes(needle)] *)
Fixpoint includes (s needle : string) : bool :=
    if String.prefix needle s then true
    else match s with
         | EmptyString => false
         | String _ rest => includes rest needle
         end.

  (** [`${n}`] for an integer *)
Definition decimal (n : Z) : string := NilZero.string_of_int (Z.to_int n).

  (** [Math.ceil(a / b)] for integers, [b > 0] *)
Definition ceil_div (a b : Z) : Z := - ((- a) / b).

End Js.

(** ** JSON bodies of responses *)

Unset Elimination Schemes.
Inductive json : Type :=
| JNull
| JBool (b : bool)
| JNum (n : Z)
| JDecimal (mantissa : Z) (places : nat)  (* 9.99 is [JDecimal 999 2] *)
| JPercent (num den : Z)                  (* the number [(num / den) * 100] *)
| JStr (s : string)
| JDate (ms : Z)
| JArr (items : list json)
| JObj (fields : list (string * json)).
Set Elimination Schemes.

Definition jstr (s : option string) : json :=
  match s with Some v => JStr v | None => JNull end.

Definition jdate (d : option Z) : json :=
  match d with Some v => JDate v | None => JNull end.

Record response : Type := mkResponse { code : Z; body : json }.

(** [res.status(c).json(b)] and [res.json(b)] *)
Definition status_json (c : Z) (b : json) : response := mkResponse c b.
Definition res_json (b : json) : response := mkResponse 200 b.

(** ** Documents: models/User, models/Content *)

Module Subscription.
  (** [orderId] and [pendingPlanId] are the paths [subscription.orderId]
      and [subscription.pendingPlanId] that the webhook handlers query,
      read and write; the schema of the model does not declare them and
      the embedding keeps them as stored paths all the same. *)
Record t : Type := mk {
    status : option string;
    planId : option string;
    customerId : option string;
    orderId : option string;
    pendingPlanId : option string;
    startDate : option Z;
    endDate : option Z;
    isActive : option bool
  }.
End Subscription.

Module Payment.
Record t : Type := mk {
    pendingOrderId : option string;
    pendingPlanId : option string;
    lastPaymentDate : option Z;
    lastPaymentAmount : option Z
  }.
End Payment.

Module User.
  (** The profile paths (googleId, email, name, avatar, createdAt) are left
      out: no handler below reads or writes them. *)
Record t : Type := mk {
    _id : string;
    subscription : Subscription.t;
    payment : Payment.t;
    usageLimit : Z;
    usageCount : Z
  }.
End User.

Module Content.
Record t : Type := mk {
    _id : string;
    user : string;
    prompt : string;
    generatedContent : string;
    contentType : string;
    createdAt : Z
  }.

Definition contentTypes : list string :=
    ["blog"; "article"; "social"; "seo"; "email"; "other"].

Definition to_json (c : t) : json :=
    JObj [("_id", JStr (_id c)); ("user", JStr (user c));
          ("prompt", JStr (prompt c));
          ("generatedContent", JStr (generatedContent c));
          ("contentType", JStr (contentType c));
          ("createdAt", JDate (createdAt c))].
End Content.

(** ** The world a request runs in, and the handler monad *)

(** Invocations of the payment gateway client, in the order they happen. *)
Inductive call : Type :=
| CreateOrder (planId userId : string)
| CaptureOrder (orderId : string)
| VerifyWebhook (webhookId : option string).

Record world : Type := mkWorld {
  users : list User.t;
  contents : list Content.t;
  gateway : list call
}.

(** A computation either returns or throws an [Error] with a message. *)
Inductive result (A : Type) : Type :=
| Ok (a : A)
| Throw (message : string).
Arguments Ok {A} a.
Arguments Throw {A} message.

Definition M (A : Type) : Type := world -> result A * world.

Definition ret {A} (a : A) : M A := fun w => (Ok a, w).

Definition throw {A} (message : string) : M A := fun w => (Throw message, w).

Definition bind {A B} (m : M A) (k : A -> M B) : M B :=
  fun w => match m w with
           | (Ok a, w') => k a w'
           | (Throw e, w') => (Throw e, w')
           end.

(** [try { m } catch (error) { h(error.message) }] *)
Definition try_catch {A} (m : M A) (h : string -> M A) : M A :=
  fun w => match m w with
           | (Ok a, w') => (Ok a, w')
           | (Throw e, w') => h e w'
           end.

(** An awaited outside answer. *)
Definition lift {A} (r : result A) : M A := fun w => (r, w).

Declare Scope handler_scope.
Delimit Scope handler_scope with handler.
Notation "x <- m ;; k" := (bind m (fun x => k))
  (at level 61, m at next level, right associativity) : handler_scope.
Notation "m ;;; k" := (bind m (fun _ => k))
  (at level 61, right associativity) : handler_scope.
Local Open Scope handler_scope.

(** A route handler: whatever escapes it ends in Express' own 500. *)
Definition handle (m : M response) (w : world) : response * world :=
  match m w with
  | (Ok r, w') => (r, w')
  | (Throw e, w') => (status_json 500 (JStr e), w')
  end.

(** ** The store: mongoose queries over the User and Content collections *)

Module Mongo.

Definition has_id (id : string) (u : User.t) : bool :=
    String.eqb (User._id u) id.

Fixpoint update_first (p : User.t -> bool) (f : User.t -> User.t)
      (l : list User.t) : list User.t :=
    match l with
    | [] => []
    | u :: rest => if p u then f u :: rest else u :: update_first p f rest
    end.

  (** [User.findById(id)] *)
Definition findById (id : string) : M (option User.t) :=
    fun w => (Ok (find (has_id id) (users w)), w).

  (** [User.findOne(filter)] *)
Definition findOne (filter : User.t -> bool) : M (option User.t) :=
    fun w => (Ok (find filter (users w)), w).

  (** [User.findByIdAndUpdate(id, update)] *)
Definition findByIdAndUpdate (id : string) (update : User.t -> User.t)
      : M unit :=
    fun w => (Ok tt, mkWorld (update_first (has_id id) update (users w))
                            (contents w) (gateway w)).

Definition content_has_id (id : string) (c : Content.t) : bool :=
    String.eqb (Content._id c) id.

  (** [Content.findById(id)], for an id that casts *)
Definition findContentById (id : string) : M (option Content.t) :=
    fun w => (Ok (find (content_has_id id) (contents w)), w).

Fixpoint remove_first (p : Content.t -> bool) (l : list Content.t)
      : list Content.t :=
    match l with
    | [] => []
    | c :: rest => if p c then rest else c :: remove_first p rest
    end.

  (** [content.deleteOne()] *)
Definition deleteContent (c : Content.t) : M unit :=
    fun w => (Ok tt, mkWorld (users w)
                       (remove_first (content_has_id (Content._id c)) (contents w))
                       (gateway w)).

  (** [content.save()] of a new document; validation is done by the caller *)
Definition insertContent (c : Content.t) : M unit :=
    fun w => (Ok tt, mkWorld (users w) (contents w ++ [c]) (gateway w)).

End Mongo.

(** Recording an invocation of the gateway client. *)
Definition record_call (c : call) : M unit :=
  fun w => (Ok tt, mkWorld (users w) (contents w) (gateway w ++ [c])).

(** ** Webhook events *)

(** The value of a property chain such as
    [event.resource.payer.payer_id]: reading through a missing object
    raises a TypeError. *)
Inductive chain (A : Type) : Type :=
| Broken
| Value (a : A).
Arguments Broken {A}.
Arguments Value {A} a.

Module Event.
Record t : Type := mk {
  event_type : option string;
  (** [resource.supplementary_data.related_ids.order_id] *)
  order_id : chain (option string);
  (** [resource.payer.payer_id] *)
  payer_id : chain (option string)
}.
End Event.

(** ** The environment of one request *)

Module Env.
  (** The body of the verification request sent to PayPal. *)
Record VerifyBody : Type := mkVerifyBody {
    auth_algo : option string;
    cert_url : option string;
    transmission_id : option string;
    transmission_sig : option string;
    transmission_time : option string;
    webhook_id : option string;
    webhook_event : Event.t
  }.

Record t : Type := mk {
    (** [new Date()] and [Date.now()] while the request runs *)
    now : Z;
    (** [process.env.PAYPAL_CLIENT_ID], [process.env.PAYPAL_WEBHOOK_ID] *)
    PAYPAL_CLIENT_ID : option string;
    PAYPAL_WEBHOOK_ID : option string;
    (** [mongoose.connection.readyState] *)
    readyState : Z;
    (** [client.execute(new OrdersCaptureRequest(orderId))]: the [status]
        of [response.result], or the error thrown *)
    execute_capture : string -> result (option string);
    (** [client.execute(verifyRequest)]: [result.verification_status] *)
    execute_verify : VerifyBody -> result (option string);
    (** [generateContent(prompt, contentType, options)] of utils/geminiApi;
        the options are kept as the text the client sent *)
    generateContent : string -> string -> option string -> result string;
    (** the ObjectId given to a new Content document *)
    newObjectId : string;
    (** whether a route parameter casts to an ObjectId *)
    validObjectId : string -> bool
  }.
End Env.

(** ** Plan catalog: GET /api/payments/plans *)

Module Plans.
Record Plan : Type := mkPlan {
    id : string;
    name : string;
    price_cents : Z;
    features : list string;
    usageLimit : Z
  }.

Definition plans : list Plan :=
    [ mkPlan "free" "Free" 0
        ["5 AI generations per month"; "Basic content types";
         "Standard quality"; "No download options"] 5;
      mkPlan "basic" "Basic" 999
        ["50 AI generations per month"; "All content types";
         "High quality content"; "Download as PDF and Markdown"] 50;
      mkPlan "premium" "Premium" 1999
        ["Unlimited AI generations"; "All content types";
         "Highest quality content"; "All download options";
         "Priority support"] 9999 ].

Definition to_json (p : Plan) : json :=
    JObj [("id", JStr (id p)); ("name", JStr (name p));
          ("price", JDecimal (price_cents p) 2);
          ("features", JArr (map JStr (features p)));
          ("limits", JObj [("usageLimit", JNum (usageLimit p))])].

  (** [router.get('/plans')] *)
Definition get_plans : response := res_json (JArr (map to_json plans)).

  (** The quota the catalog gives a plan id. *)
Definition quota (planId : string) : option Z :=
    option_map usageLimit (find (fun p => String.eqb (id p) planId) plans).
End Plans.

(** ** utils/paypalApi *)

Module PaypalApi.
Section WithEnv.
Variable env : Env.t.

Record Order : Type := mkOrder {
    order_id : option string;
    order_status : string;
    approve_href : string
  }.

  (** [process.env.PAYPAL_CLIENT_ID === 'sb' || !process.env.PAYPAL_CLIENT_ID] *)
Definition sandbox : bool :=
    Js.is_lit (Env.PAYPAL_CLIENT_ID env) "sb"
    || negb (Js.truthy (Env.PAYPAL_CLIENT_ID env)).

  (** [createOrder(planId, userId)].  Outside the sandbox the function
      calls [request.prefer] on a plain object literal, which throws
      before any request leaves. *)
Definition createOrder (planId userId : string) : M Order :=
    record_call (CreateOrder planId userId) ;;;
    if (String.eqb planId "basic" || String.eqb planId "premium")%bool then
      if sandbox then
        ret (mkOrder
               (Some ("TEST-ORDER-" ++ Js.decimal (Env.now env)))
               "CREATED"
               ("http://localhost:3000/payment/success?token=TEST-ORDER-"
                  ++ Js.decimal (Env.now env)))
      else throw "request.prefer is not a function"
    else throw "Invalid plan ID".

  (** [captureOrder(orderId)]: the [status] of the capture data *)
Definition captureOrder (orderId : string) : M (option string) :=
    record_call (CaptureOrder orderId) ;;;
    if (sandbox && Js.startsWith orderId "TEST-ORDER-")%bool then
      ret (Some "COMPLETED")
    else lift (Env.execute_capture env orderId).

  (** Request headers, by lower-case name. *)
Definition headers : Type := list (string * string).

Definition header (h : headers) (name : string) : option string :=
    option_map snd (find (fun kv => String.eqb (fst kv) name) h).

Definition verifyBody (webhookId : option string)
      (event : Event.t) (h : headers) : Env.VerifyBody :=
    Env.mkVerifyBody
      (header h "paypal-auth-algo")
      (header h "paypal-cert-url")
      (header h "paypal-transmission-id")
      (header h "paypal-transmission-sig")
      (header h "paypal-transmission-time")
      webhookId
      event.

  (** [verifyWebhookSignature(webhookId, event, requestHeaders)] *)
Definition verifyWebhookSignature (webhookId : option string)
      (event : Event.t) (h : headers) : M bool :=
    record_call (VerifyWebhook webhookId) ;;;
    try_catch
      (verification_status <-
         lift (Env.execute_verify env (verifyBody webhookId event h)) ;;
       ret (Js.is_lit verification_status "SUCCESS"))
      (fun _ => ret false).

End WithEnv.
End PaypalApi.

(** ** middleware/auth *)

Module Middleware.
Section WithEnv.
Variable env : Env.t.

  (** What [jwt.verify] makes of the [x-auth-token] header. *)
Inductive token : Type :=
  | NoToken
  | BadToken (message : string)
  | Decoded (id : string).

  (** A middleware either answers or calls [next()] with a value. *)
Inductive step (A : Type) : Type :=
  | Respond (r : response)
  | Next (a : A).
Arguments Respond {A} r.
Arguments Next {A} a.

  (** [auth]: on [next()] the user document is [req.user]. *)
Definition auth (tok : token) : M (step User.t) :=
    match tok with
    | NoToken =>
        ret (Respond (status_json 401
               (JObj [("msg", JStr "No token, authorization denied")])))
    | BadToken message =>
        ret (Respond (status_json 401
               (JObj [("msg", JStr "Token is not valid");
                      ("error", JStr message)])))
    | Decoded id =>
        user <- Mongo.findById id ;;
        match user with
        | None =>
            ret (Respond (status_json 401 (JObj [("msg", JStr "User not found")])))
        | Some u => ret (Next u)
        end
    end.

Definition set_status (s : option string) (u : User.t) : User.t :=
    let sub := User.subscription u in
    User.mk (User._id u)
      (Subscription.mk s (Subscription.planId sub)
         (Subscription.customerId sub) (Subscription.orderId sub)
         (Subscription.pendingPlanId sub) (Subscription.startDate sub)
         (Subscription.endDate sub) (Subscription.isActive sub))
      (User.payment u) (User.usageLimit u) (User.usageCount u).

  (** [new Date(endDate) < new Date()] guarded by [endDate &&] *)
Definition past (endDate : option Z) : bool :=
    match endDate with
    | Some d => d <? Env.now env
    | None => false
    end.

  (** [checkSubscription] *)
Definition checkSubscription (reqUser : option User.t) : M (step unit) :=
    try_catch
      (match reqUser with
       | None =>
           ret (Respond (status_json 401
                  (JObj [("msg", JStr "User not authenticated")])))
       | Some u =>
           let sub := User.subscription u in
           if (Js.is_lit (Subscription.status sub) "free"
               && (User.usageLimit u <=? User.usageCount u))%bool then
             ret (Respond (status_json 403
                    (JObj [("msg", JStr "Free tier usage limit reached. Please upgrade your subscription.");
                           ("limitReached", JBool true)])))
           else if (Js.one_of ["basic"; "premium"] (Subscription.status sub)
                    && past (Subscription.endDate sub))%bool then
             Mongo.findByIdAndUpdate (User._id u) (set_status (Some "free")) ;;;
             ret (Respond (status_json 403
                    (JObj [("msg", JStr "Your subscription has expired. Please renew.");
                           ("subscriptionExpired", JBool true)])))
           else ret (Next tt)
       end)
      (fun message =>
         ret (Respond (status_json 500
                (JObj [("msg", JStr "Server Error"); ("error", JStr message)])))).

End WithEnv.
Arguments Respond {A} r.
Arguments Next {A} a.
End Middleware.

(** ** routes/payment *)

Module PaymentRoutes.
Import Middleware.
Section WithEnv.
Variable env : Env.t.

Definition msg (c : Z) (text : string) : response :=
  status_json c (JObj [("msg", JStr text)]).

Definition server_error (message : string) : response :=
  status_json 500 (JObj [("msg", JStr "Server error"); ("error", JStr message)]).

(** [endDate.setDate(endDate.getDate() + 30)] *)
Definition thirty_days_later : Z := Env.now env + 30 * 86400000.

(** The update of create-order:
    [{'payment.pendingOrderId': order.id, 'payment.pendingPlanId': planId}] *)
Definition set_pending (orderId planId : option string) (u : User.t) : User.t :=
  let pay := User.payment u in
  User.mk (User._id u) (User.subscription u)
    (Payment.mk orderId planId
       (Payment.lastPaymentDate pay) (Payment.lastPaymentAmount pay))
    (User.usageLimit u) (User.usageCount u).

(** [router.post('/create-order')] *)
Definition create_order (tok : token) (planId : option string)
    : world -> response * world :=
  handle
    (a <- auth tok ;;
     match a with
     | Respond r => ret r
     | Next reqUser =>
       try_catch
         (if (negb (Js.truthy planId)
              || negb (Js.one_of ["basic"; "premium"] planId))%bool then
            ret (msg 400 "Invalid plan selected")
          else
            match planId with
            | None => ret (msg 400 "Invalid plan selected")
            | Some p =>
              order <- PaypalApi.createOrder env p (User._id reqUser) ;;
              if negb (Js.truthy (PaypalApi.order_id order)) then
                ret (msg 500 "Error creating PayPal order")
              else
                Mongo.findByIdAndUpdate (User._id reqUser)
                  (set_pending (PaypalApi.order_id order) planId) ;;;
                ret (res_json (JObj [("success", JBool true);
                                     ("orderId", jstr (PaypalApi.order_id order))]))
            end)
         (fun message => ret (server_error message))
     end).

(** The quota [handleCompletedPayment] picks for a plan id. *)
Definition capture_usageLimit (planId : option string) : Z :=
  if Js.is_lit planId "basic" then 50
  else if Js.is_lit planId "premium" then 200
  else 10.

(** The update of [handleCompletedPayment]. *)
Definition completed_update (planId : option string) (u : User.t) : User.t :=
  let sub := User.subscription u in
  let pay := User.payment u in
  User.mk (User._id u)
    (Subscription.mk planId planId
       (Subscription.customerId sub) (Subscription.orderId sub)
       (Subscription.pendingPlanId sub)
       (Some (Env.now env)) (Some thirty_days_later) (Some true))
    (Payment.mk None None
       (Payment.lastPaymentDate pay) (Payment.lastPaymentAmount pay))
    (capture_usageLimit planId) 0.

(** [handleCompletedPayment(user, planId)] *)
Definition handleCompletedPayment (user : User.t) (planId : option string)
    : M bool :=
  try_catch
    (Mongo.findByIdAndUpdate (User._id user) (completed_update planId) ;;;
     ret true)
    (fun message => throw message).

(** [router.post('/capture-order')] *)
Definition capture_order (tok : token) (orderId : option string)
    : world -> response * world :=
  handle
    (a <- auth tok ;;
     match a with
     | Respond r => ret r
     | Next reqUser =>
       try_catch
         (match orderId with
          | None => ret (msg 400 "Order ID is required")
          | Some oid =>
            if negb (Js.truthy orderId) then ret (msg 400 "Order ID is required")
            else
              found <- Mongo.findById (User._id reqUser) ;;
              match found with
              | None => ret (msg 404 "User not found")
              | Some user =>
                if negb (Js.strict_eq
                           (Payment.pendingOrderId (User.payment user)) orderId)
                then ret (msg 400 "Order ID does not match pending order")
                else
                  capture_status <- PaypalApi.captureOrder env oid ;;
                  if Js.is_lit capture_status "COMPLETED" then
                    let planId := Payment.pendingPlanId (User.payment user) in
                    handleCompletedPayment user planId ;;;
                    ret (res_json (JObj [("success", JBool true);
                                         ("status", JStr "COMPLETED");
                                         ("planId", jstr planId)]))
                  else
                    ret (status_json 400
                           (JObj [("success", JBool false);
                                  ("msg", JStr "Payment not completed");
                                  ("status", jstr capture_status)]))
              end
          end)
         (fun message => ret (server_error message))
     end).

(** Reading a property chain of the event. *)
Definition read {A} (c : chain A) : M A :=
  match c with
  | Broken => throw "Cannot read properties of undefined"
  | Value a => ret a
  end.

(** [{ 'subscription.orderId': orderId }] *)
Definition by_subscription_orderId (orderId : option string) (u : User.t)
    : bool :=
  Js.strict_eq (Subscription.orderId (User.subscription u)) orderId.

(** The update of [handlePaymentCompleted]: the whole [subscription] is
    replaced by the six paths the handler names. *)
Definition webhook_completed_update (planId : string)
    (payerId orderId : option string) (u : User.t) : User.t :=
  User.mk (User._id u)
    (Subscription.mk (Some planId) (Some planId) payerId orderId None
       (Some (Env.now env)) (Some thirty_days_later) None)
    (User.payment u)
    (if String.eqb planId "basic" then 50 else 9999) 0.

(** [handlePaymentCompleted(event)] *)
Definition handlePaymentCompleted (event : Event.t) : M unit :=
  try_catch
    (orderId <- read (Event.order_id event) ;;
     payerId <- read (Event.payer_id event) ;;
     found <- Mongo.findOne (by_subscription_orderId orderId) ;;
     match found with
     | None => ret tt
     | Some user =>
       if Js.is_lit (Subscription.status (User.subscription user)) "free" then
         let planId :=
           Js.or_else (Subscription.pendingPlanId (User.subscription user))
                      "basic" in
         Mongo.findByIdAndUpdate (User._id user)
           (webhook_completed_update planId payerId orderId)
       else ret tt
     end)
    (fun message => throw message).

(** The update shared by the refund handler and the expiry branch of
    GET /subscription: back to the free plan, [customerId] kept. *)
Definition revert_to_free (customerId : option string) (u : User.t) : User.t :=
  User.mk (User._id u)
    (Subscription.mk (Some "free") (Some "free") customerId None None
       None None None)
    (User.payment u) 5 (User.usageCount u).

(** [handlePaymentDeniedOrRefunded(event)] *)
Definition handlePaymentDeniedOrRefunded (event : Event.t) : M unit :=
  try_catch
    (orderId <- read (Event.order_id event) ;;
     found <- Mongo.findOne (by_subscription_orderId orderId) ;;
     match found with
     | None => ret tt
     | Some user =>
       Mongo.findByIdAndUpdate (User._id user)
         (revert_to_free (Subscription.customerId (User.subscription user)))
     end)
    (fun message => throw message).

(** [router.post('/webhook')] *)
Definition webhook (h : PaypalApi.headers) (event : Event.t)
    : world -> response * world :=
  handle
    (try_catch
       (isValid <- PaypalApi.verifyWebhookSignature env
                     (Env.PAYPAL_WEBHOOK_ID env) event h ;;
        if negb isValid then ret (msg 401 "Invalid webhook signature")
        else
          (if Js.is_lit (Event.event_type event) "PAYMENT.CAPTURE.COMPLETED"
           then handlePaymentCompleted event
           else if (Js.is_lit (Event.event_type event) "PAYMENT.CAPTURE.DENIED"
                    || Js.is_lit (Event.event_type event)
                         "PAYMENT.CAPTURE.REFUNDED")%bool
           then handlePaymentDeniedOrRefunded event
           else ret tt) ;;;
          ret (msg 200 "Webhook received"))
       (fun _ => ret (msg 500 "Server Error"))).

(** [router.get('/subscription')] *)
Definition get_subscription (tok : token) : world -> response * world :=
  handle
    (a <- auth tok ;;
     match a with
     | Respond r => ret r
     | Next reqUser =>
       try_catch
         (found <- Mongo.findById (User._id reqUser) ;;
          match found with
          | None => ret (msg 404 "User not found")
          | Some user =>
            let sub := User.subscription user in
            if past env (Subscription.endDate sub) then
              Mongo.findByIdAndUpdate (User._id user)
                (revert_to_free (Subscription.customerId sub)) ;;;
              ret (res_json
                     (JObj [("subscription",
                             JObj [("status", JStr "free");
                                   ("planId", JStr "free");
                                   ("startDate", JNull);
                                   ("endDate", JNull);
                                   ("isActive", JBool true)]);
                            ("usageLimit", JNum 5);
                            ("usageCount", JNum (User.usageCount user))]))
            else
              let daysRemaining :=
                match Subscription.endDate sub with
                | Some d => JNum (Js.ceil_div (d - Env.now env) 86400000)
                | None => JNull
                end in
              ret (res_json
                     (JObj [("subscription",
                             JObj [("status", jstr (Subscription.status sub));
                                   ("planId", jstr (Subscription.planId sub));
                                   ("startDate", jdate (Subscription.startDate sub));
                                   ("endDate", jdate (Subscription.endDate sub));
                                   ("isActive",
                                    JBool (negb (Js.is_lit (Subscription.status sub) "free")));
                                   ("daysRemaining", daysRemaining)]);
                            ("usageLimit", JNum (User.usageLimit user));
                            ("usageCount", JNum (User.usageCount user));
                            ("usagePercentage",
                             JPercent (User.usageCount user) (User.usageLimit user))]))
          end)
         (fun _ => ret (msg 500 "Server Error"))
     end).

End WithEnv.
End PaymentRoutes.

(** ** routes/content *)

Module ContentRoutes.
Import Middleware.
Section WithEnv.
Variable env : Env.t.

(** The validation [newContent.save()] runs before writing: a String path
    that is [required] refuses the empty string, [contentType] must be
    one of the enum.  The result is the message of the ValidationError. *)
Definition validation_error (c : Content.t) : option string :=
  if String.eqb (Content.generatedContent c) "" then
    Some "Content validation failed: generatedContent: Path `generatedContent` is required."
  else if negb (Js.one_of Content.contentTypes (Some (Content.contentType c))) then
    Some ("Content validation failed: contentType: `" ++ Content.contentType c
            ++ "` is not a valid enum value for path `contentType`.")
  else None.

(** [await newContent.save()] *)
Definition save (c : Content.t) : M unit :=
  match validation_error c with
  | Some message => throw message
  | None => Mongo.insertContent c
  end.

(** [{ $inc: { usageCount: 1 } }] *)
Definition inc_usageCount (u : User.t) : User.t :=
  User.mk (User._id u) (User.subscription u) (User.payment u)
    (User.usageLimit u) (User.usageCount u + 1).

(** The inner [catch (apiError)] of /generate. *)
Definition api_error (message : string) : response :=
  if Js.includes message "API key" then
    status_json 500
      (JObj [("msg", JStr "API configuration error. Please contact support.");
             ("error", JStr "API_CONFIG_ERROR")])
  else if Js.includes message "Rate limit" then
    status_json 429
      (JObj [("msg", JStr "Too many requests. Please try again later.");
             ("error", JStr "RATE_LIMIT_EXCEEDED")])
  else
    status_json 500
      (JObj [("msg", JStr "Error generating content. Please try again.");
             ("error", JStr message)]).

(** The handler of /generate, after [auth] and [checkSubscription]. *)
Definition generate_handler (reqUser : User.t)
    (prompt contentType : option string) : M response :=
  try_catch
    (match prompt with
     | None => ret (status_json 400 (JObj [("msg", JStr "Prompt is required")]))
     | Some p =>
       if negb (Js.truthy prompt) then
         ret (status_json 400 (JObj [("msg", JStr "Prompt is required")]))
       else if negb (Env.readyState env =? 1) then
         ret (status_json 500 (JObj [("msg", JStr "Database connection error")]))
       else
         try_catch
           (generatedContent <-
              lift (Env.generateContent env p (Js.or_else contentType "other") None) ;;
            let newContent :=
              Content.mk (Env.newObjectId env) (User._id reqUser) p
                generatedContent (Js.or_else contentType "other")
                (Env.now env) in
            save newContent ;;;
            Mongo.findByIdAndUpdate (User._id reqUser) inc_usageCount ;;;
            ret (res_json (Content.to_json newContent)))
           (fun message => ret (api_error message))
     end)
    (fun message =>
       ret (status_json 500
              (JObj [("msg", JStr "Server Error"); ("error", JStr message)]))).

(** [router.post('/generate', [auth, checkSubscription], ...)] *)
Definition generate (tok : token) (prompt contentType : option string)
    : world -> response * world :=
  handle
    (a <- auth tok ;;
     match a with
     | Respond r => ret r
     | Next reqUser =>
       g <- checkSubscription env (Some reqUser) ;;
       match g with
       | Respond r => ret r
       | Next _ => generate_handler reqUser prompt contentType
       end
     end).

(** [router.post('/test-gemini', auth, ...)] *)
Definition test_gemini (tok : token) (prompt contentType options : option string)
    : world -> response * world :=
  handle
    (a <- auth tok ;;
     match a with
     | Respond r => ret r
     | Next _ =>
       try_catch
         (match prompt with
          | None => ret (status_json 400 (JObj [("msg", JStr "Prompt is required")]))
          | Some p =>
            if negb (Js.truthy prompt) then
              ret (status_json 400 (JObj [("msg", JStr "Prompt is required")]))
            else
              generatedContent <-
                lift (Env.generateContent env p
                        (Js.or_else contentType "other") options) ;;
              ret (res_json
                     (JObj [("success", JBool true);
                            ("generatedContent", JStr generatedContent);
                            ("contentType", JStr (Js.or_else contentType "other"));
                            ("length", JNum (Z.of_nat (String.length generatedContent)));
                            ("timestamp", JDate (Env.now env))]))
          end)
         (fun message =>
            ret (status_json 500
                   (JObj [("success", JBool false);
                          ("msg", JStr "Error testing Gemini API");
                          ("error", JStr message)])))
     end).

Definition not_found : response :=
  status_json 404 (JObj [("msg", JStr "Content not found")]).

Definition not_authorized : response :=
  status_json 401 (JObj [("msg", JStr "Not authorized")]).

(** [router.get('/:id', auth, ...)].  An id that does not cast makes
    [Content.findById] throw an error of kind ObjectId, which the handler
    answers with the same 404. *)
Definition get_content (tok : token) (id : string)
    : world -> response * world :=
  handle
    (a <- auth tok ;;
     match a with
     | Respond r => ret r
     | Next reqUser =>
       if negb (Env.validObjectId env id) then ret not_found
       else
         found <- Mongo.findContentById id ;;
         match found with
         | None => ret not_found
         | Some content =>
           if negb (String.eqb (Content.user content) (User._id reqUser)) then
             ret not_authorized
           else ret (res_json (Content.to_json content))
         end
     end).

(** [router.delete('/:id', auth, ...)] *)
Definition delete_content (tok : token) (id : string)
    : world -> response * world :=
  handle
    (a <- auth tok ;;
     match a with
     | Respond r => ret r
     | Next reqUser =>
       if negb (Env.validObjectId env id) then ret not_found
       else
         found <- Mongo.findContentById id ;;
         match found with
         | None => ret not_found
         | Some content =>
           if negb (String.eqb (Content.user content) (User._id reqUser)) then
             ret not_authorized
           else
             Mongo.deleteContent content ;;;
             ret (res_json (JObj [("msg", JStr "Content removed")]))
         end
     end).

End WithEnv.
End ContentRoutes.

(** ** utils/dbHelpers *)

Module DbHelpers.

(** The state of the loop of [retryConnection]: whether it returned
    [true], how many times [connectFn] was called, and the delays slept. *)
Record run : Type := mkRun {
  connected : bool;
  attempts : nat;
  slept : list Z
}.

(** The [while (retries < maxRetries)] loop; [remaining] is
    [maxRetries - retries], [k] the number of calls made so far and
    [attempt k] tells whether call number [k] of [connectFn] resolves. *)
Fixpoint retry_loop (attempt : nat -> bool) (remaining k : nat) (delay : Z)
    (sleeps : list Z) : run :=
  match remaining with
  | O => mkRun false k sleeps
  | S r =>
    if attempt k then mkRun true (S k) sleeps
    else match r with
         | O => mkRun false (S k) sleeps
         | S _ => retry_loop attempt r (S k) (delay * 2) (sleeps ++ [delay * 2])
         end
  end.

(** [retryConnection(connectFn, maxRetries, initialDelay)] *)
Definition retryConnection (attempt : nat -> bool) (maxRetries : Z)
    (initialDelay : Z) : run :=
  retry_loop attempt (Z.to_nat maxRetries) 0 initialDelay [].

End DbHelpers.

(** ** The mounted routes *)

Module Server.
Import Middleware.

(** The requests of the payment and content routers that the server
    mounts under /api/payments and /api/content. *)
Inductive request : Type :=
| GetPlans
| CreateOrderReq (tok : token) (planId : option string)
| CaptureOrderReq (tok : token) (orderId : option string)
| WebhookReq (h : PaypalApi.headers) (event : Event.t)
| GetSubscriptionReq (tok : token)
| GenerateReq (tok : token) (prompt contentType : option string)
| TestGeminiReq (tok : token) (prompt contentType options : option string)
| GetContentReq (tok : token) (id : string)
| DeleteContentReq (tok : token) (id : string).

Definition serve (env : Env.t) (req : request) : world -> response * world :=
  match req with
  | GetPlans => fun w => (Plans.get_plans, w)
  | CreateOrderReq tok planId => PaymentRoutes.create_order env tok planId
  | CaptureOrderReq tok orderId => PaymentRoutes.capture_order env tok orderId
  | WebhookReq h event => PaymentRoutes.webhook env h event
  | GetSubscriptionReq tok => PaymentRoutes.get_subscription env tok
  | GenerateReq tok prompt contentType =>
      ContentRoutes.generate env tok prompt contentType
  | TestGeminiReq tok prompt contentType options =>
      ContentRoutes.test_gemini env tok prompt contentType options
  | GetContentReq tok id => ContentRoutes.get_content env tok id
  | DeleteContentReq tok id => ContentRoutes.delete_content env tok id
  end.

(** A history: requests served one after the other, each in the
    environment of its own time. *)
Fixpoint serve_all (history : list (Env.t * request)) (w : world) : world :=
  match history with
  | [] => w
  | (env, req) :: rest => serve_all rest (snd (serve env req w))
  end.

(** The document updates that the routes other than the webhook issue. *)
Inductive account_update (env : Env.t) : (User.t -> User.t) -> Prop :=
| upd_pending (orderId planId : option string) :
    account_update env (PaymentRoutes.set_pending orderId planId)
| upd_completed (planId : option string) :
    account_update env (PaymentRoutes.completed_update env planId)
| upd_revert (customerId : option string) :
    account_update env (PaymentRoutes.revert_to_free customerId)
| upd_status (s : option string) :
    account_update env (set_status s)
| upd_inc :
    account_update env ContentRoutes.inc_usageCount.

(** No account carries an order id under [subscription.orderId]. *)
Definition unlinked (w : world) : Prop :=
  Forall (fun u => Subscription.orderId (User.subscription u) = None) (users w).

End Server.

(** ** Scenarios used to run the handlers *)

Module Scenario.

Definition t0 : Z := 1700000000000.
Definition day : Z := 86400000.

(** A sandbox configuration (no PayPal client id) at time [now]; the
    provider answers a verification with [verification]. *)
Definition sandbox_env (now : Z) (verification : result (option string))
    : Env.t :=
  Env.mk now None (Some "WH-1") 1
    (fun _ => Throw "provider unavailable")
    (fun _ => verification)
    (fun prompt _ _ => Ok ("Generated: " ++ prompt))
    "c1"
    (fun _ => true).

(** A live configuration whose provider answers a capture with [capture]. *)
Definition live_env (now : Z) (capture : result (option string)) : Env.t :=
  Env.mk now (Some "live-client") (Some "WH-1") 1
    (fun _ => capture)
    (fun _ => Ok (Some "SUCCESS"))
    (fun prompt _ _ => Ok ("Generated: " ++ prompt))
    "c1"
    (fun _ => true).

(** The account passport creates at first login. *)
Definition fresh (id : string) : User.t :=
  User.mk id
    (Subscription.mk (Some "free") None None None None None None (Some false))
    (Payment.mk None None None None)
    5 0.

(** A paying account: [status] until [endDate], with the given usage. *)
Definition paid (id status : string) (endDate limit count : Z) : User.t :=
  User.mk id
    (Subscription.mk (Some status) (Some status) None None None
       (Some (endDate - 30 * day)) (Some endDate) (Some true))
    (Payment.mk None None None None)
    limit count.

Definition world_of (l : list User.t) : world := mkWorld l [] [].

Definition completed_event (orderId : string) : Event.t :=
  Event.mk (Some "PAYMENT.CAPTURE.COMPLETED")
    (Value (Some orderId)) (Value (Some "PAYER-1")).

Definition refunded_event (orderId : string) : Event.t :=
  Event.mk (Some "PAYMENT.CAPTURE.REFUNDED")
    (Value (Some orderId)) (Value (Some "PAYER-1")).

(** The user with id [id] in a world. *)
Definition user_of (id : string) (w : world) : option User.t :=
  find (Mongo.has_id id) (users w).

End Scenario.

(** * Properties *)

Import Middleware.

(** Running the monad of the handlers by computation. *)
Ltac monad :=
  cbv beta iota delta
    [handle bind ret throw try_catch lift record_call
     auth Mongo.findById Mongo.findOne Mongo.findByIdAndUpdate
     Mongo.insertContent Mongo.findContentById Mongo.deleteContent
     PaymentRoutes.read].

(** ** Facts about the JavaScript helpers and the store *)

Lemma strict_eq_spec (a b : option string) :
  Js.strict_eq a b = true <-> a = b.
Proof.
  destruct a as [x|], b as [y|]; simpl; split; intro H;
    try discriminate; try reflexivity.
  - apply String.eqb_eq in H. now subst.
  - injection H as ->. apply String.eqb_refl.
Qed.

Lemma strict_eq_neq (a b : option string) :
  a <> b -> Js.strict_eq a b = false.
Proof.
  intro H. destruct (Js.strict_eq a b) eqn:E; [|reflexivity].
  apply strict_eq_spec in E. contradiction.
Qed.

Lemma find_update_first (p : User.t -> bool) (f : User.t -> User.t)
    (l : list User.t) :
  (forall u, p (f u) = p u) ->
  find p (Mongo.update_first p f l) = option_map f (find p l).
Proof.
  intro Hp. induction l as [|u rest IH]; simpl; [reflexivity|].
  destruct (p u) eqn:E; simpl.
  - now rewrite Hp, E.
  - now rewrite E.
Qed.

Lemma update_first_absent (p : User.t -> bool) (f : User.t -> User.t)
    (l : list User.t) :
  find p l = None -> Mongo.update_first p f l = l.
Proof.
  induction l as [|u rest IH]; simpl; [reflexivity|].
  destruct (p u); [discriminate|]. intro H. now rewrite IH.
Qed.

Lemma find_has_id (id : string) (l : list User.t) (u : User.t) :
  find (Mongo.has_id id) l = Some u -> User._id u = id.
Proof.
  intro H. apply find_some in H as [_ H]. now apply String.eqb_eq in H.
Qed.

(** ** Order binding and idempotent capture *)

(** C1. Whenever the order id of a capture request differs from the
    pending order id stored for the user, the request is answered 400 and
    the world (user documents, contents and the log of gateway calls) is
    exactly what it was: nothing is mutated and no capture is attempted.
    For an order id that is present the answer is the order-mismatch
    rejection. *)
Theorem capture_order_mismatch_rejected :
  forall (env : Env.t) (w : world) (uid : string) (u : User.t)
         (orderId : option string),
    Scenario.user_of uid w = Some u ->
    Payment.pendingOrderId (User.payment u) <> orderId ->
    let (r, w') := PaymentRoutes.capture_order env (Decoded uid) orderId w in
    w' = w /\ code r = 400 /\
    (Js.truthy orderId = true ->
     r = PaymentRoutes.msg 400 "Order ID does not match pending order").
Proof.
  intros env w uid u orderId Hu Hneq.
  unfold Scenario.user_of in Hu.
  unfold PaymentRoutes.capture_order. monad. rewrite Hu. monad.
  destruct orderId as [oid|]; simpl.
  - destruct (String.eqb oid "") eqn:E; simpl.
    + repeat split. discriminate.
    + rewrite (find_has_id _ _ _ Hu), Hu.
      rewrite (strict_eq_neq _ _ Hneq). simpl. repeat split.
  - repeat split. discriminate.
Qed.

Lemma truthy_nonempty (s : string) : s <> "" -> Js.truthy (Some s) = true.
Proof.
  intro H. simpl. apply String.eqb_neq in H. now rewrite H.
Qed.

Lemma capture_order_rejects (env : Env.t) (w : world) (uid oid : string)
    (u : User.t) :
  Scenario.user_of uid w = Some u ->
  oid <> "" ->
  Payment.pendingOrderId (User.payment u) <> Some oid ->
  PaymentRoutes.capture_order env (Decoded uid) (Some oid) w
  = (PaymentRoutes.msg 400 "Order ID does not match pending order", w).
Proof.
  intros Hu Hoid Hneq. unfold Scenario.user_of in Hu.
  unfold PaymentRoutes.capture_order. monad. rewrite Hu. monad.
  rewrite (truthy_nonempty _ Hoid). cbn [negb]. cbv beta iota.
  rewrite (find_has_id _ _ _ Hu), Hu.
  now rewrite (strict_eq_neq _ _ Hneq).
Qed.

Lemma captureOrder_world (env : Env.t) (oid : string) (w : world) :
  snd (PaypalApi.captureOrder env oid w)
  = mkWorld (users w) (contents w) (gateway w ++ [CaptureOrder oid]).
Proof.
  unfold PaypalApi.captureOrder. monad.
  now destruct (PaypalApi.sandbox env && Js.startsWith oid "TEST-ORDER-")%bool.
Qed.

Lemma capture_order_completed (env : Env.t) (w : world) (uid oid : string)
    (u : User.t) :
  Scenario.user_of uid w = Some u ->
  oid <> "" ->
  Payment.pendingOrderId (User.payment u) = Some oid ->
  fst (PaypalApi.captureOrder env oid w) = Ok (Some "COMPLETED") ->
  PaymentRoutes.capture_order env (Decoded uid) (Some oid) w
  = (res_json (JObj [("success", JBool true); ("status", JStr "COMPLETED");
                     ("planId", jstr (Payment.pendingPlanId (User.payment u)))]),
     mkWorld
       (Mongo.update_first (Mongo.has_id uid)
          (PaymentRoutes.completed_update env
             (Payment.pendingPlanId (User.payment u))) (users w))
       (contents w) (gateway w ++ [CaptureOrder oid])).
Proof.
  intros Hu Hoid Hpend Hcap. unfold Scenario.user_of in Hu.
  pose proof (captureOrder_world env oid w) as Hw.
  unfold PaymentRoutes.capture_order. monad. rewrite Hu. monad.
  rewrite (truthy_nonempty _ Hoid). cbn [negb]. cbv beta iota.
  rewrite (find_has_id _ _ _ Hu), Hu, Hpend.
  cbn [Js.strict_eq]. rewrite String.eqb_refl. cbn [negb]. cbv beta iota.
  destruct (PaypalApi.captureOrder env oid w) as [r w1].
  simpl in Hcap, Hw. subst r w1.
  change (Js.is_lit (Some "COMPLETED") "COMPLETED") with true. cbv beta iota.
  unfold PaymentRoutes.handleCompletedPayment. monad. simpl.
  now rewrite (find_has_id _ _ _ Hu).
Qed.

(** C2. Once a capture has completed and activated the plan, a second
    capture request with the same order id changes nothing: the world
    after the second call is the world after the first (no second reset of
    usageLimit, usageCount, startDate or endDate, and no second gateway
    call), whatever the time and the provider then are.  The second call
    is answered 400, since the first one cleared the pending order. *)
Theorem capture_order_twice_unchanged :
  forall (env1 env2 : Env.t) (w : world) (uid oid : string) (u : User.t),
    Scenario.user_of uid w = Some u ->
    oid <> "" ->
    Payment.pendingOrderId (User.payment u) = Some oid ->
    fst (PaypalApi.captureOrder env1 oid w) = Ok (Some "COMPLETED") ->
    let (r1, w1) :=
      PaymentRoutes.capture_order env1 (Decoded uid) (Some oid) w in
    let (r2, w2) :=
      PaymentRoutes.capture_order env2 (Decoded uid) (Some oid) w1 in
    code r1 = 200 /\
    Scenario.user_of uid w1
    = Some (PaymentRoutes.completed_update env1
              (Payment.pendingPlanId (User.payment u)) u) /\
    w2 = w1 /\ code r2 = 400.
Proof.
  intros env1 env2 w uid oid u Hu Hoid Hpend Hcap.
  rewrite (capture_order_completed env1 w uid oid u Hu Hoid Hpend Hcap).
  set (w1 := mkWorld _ _ _).
  assert (Hu1 : Scenario.user_of uid w1
                = Some (PaymentRoutes.completed_update env1
                          (Payment.pendingPlanId (User.payment u)) u)).
  { unfold Scenario.user_of, w1. simpl users.
    rewrite find_update_first by reflexivity.
    unfold Scenario.user_of in Hu. now rewrite Hu. }
  rewrite (capture_order_rejects env2 w1 uid oid _ Hu1 Hoid).
  - repeat split. exact Hu1.
  - simpl. discriminate.
Qed.

Lemma capture_order_mismatch_rejected_witness :
  let w := Scenario.world_of [Scenario.fresh "u1"] in
  let (r, w') :=
    PaymentRoutes.capture_order
      (Scenario.sandbox_env Scenario.t0 (Ok (Some "SUCCESS")))
      (Decoded "u1") (Some "TEST-ORDER-9") w in
  w' = w /\ code r = 400 /\
  (Js.truthy (Some "TEST-ORDER-9") = true ->
   r = PaymentRoutes.msg 400 "Order ID does not match pending order").
Proof.
  apply (capture_order_mismatch_rejected
           (Scenario.sandbox_env Scenario.t0 (Ok (Some "SUCCESS")))
           (Scenario.world_of [Scenario.fresh "u1"]) "u1"
           (Scenario.fresh "u1") (Some "TEST-ORDER-9")).
  - reflexivity.
  - simpl. discriminate.
Defined.

Lemma capture_order_twice_unchanged_witness :
  let env := Scenario.sandbox_env Scenario.t0 (Ok (Some "SUCCESS")) in
  let u := PaymentRoutes.set_pending (Some "TEST-ORDER-1") (Some "basic")
             (Scenario.fresh "u1") in
  let (r1, w1) :=
    PaymentRoutes.capture_order env (Decoded "u1") (Some "TEST-ORDER-1")
      (Scenario.world_of [u]) in
  let (r2, w2) :=
    PaymentRoutes.capture_order env (Decoded "u1") (Some "TEST-ORDER-1") w1 in
  code r1 = 200 /\
  Scenario.user_of "u1" w1
  = Some (PaymentRoutes.completed_update env
            (Payment.pendingPlanId (User.payment u)) u) /\
  w2 = w1 /\ code r2 = 400.
Proof.
  apply (capture_order_twice_unchanged
           (Scenario.sandbox_env Scenario.t0 (Ok (Some "SUCCESS")))
           (Scenario.sandbox_env Scenario.t0 (Ok (Some "SUCCESS")))
           (Scenario.world_of
              [PaymentRoutes.set_pending (Some "TEST-ORDER-1") (Some "basic")
                 (Scenario.fresh "u1")])
           "u1" "TEST-ORDER-1").
  - reflexivity.
  - discriminate.
  - reflexivity.
  - reflexivity.
Defined.

(** ** Webhook verification *)

Lemma verifyWebhookSignature_run (env : Env.t) (wid : option string)
    (event : Event.t) (h : PaypalApi.headers) (w : world) :
  PaypalApi.verifyWebhookSignature env wid event h w
  = (Ok (match Env.execute_verify env (PaypalApi.verifyBody wid event h) with
         | Ok status => Js.is_lit status "SUCCESS"
         | Throw _ => false
         end),
     mkWorld (users w) (contents w) (gateway w ++ [VerifyWebhook wid])).
Proof.
  unfold PaypalApi.verifyWebhookSignature. monad.
  now destruct (Env.execute_verify env (PaypalApi.verifyBody wid event h)).
Qed.

Lemma is_lit_spec (s : option string) (lit : string) :
  Js.is_lit s lit = true <-> s = Some lit.
Proof.
  destruct s as [v|]; simpl; split; intro H; try discriminate.
  - apply String.eqb_eq in H. now subst.
  - injection H as ->. apply String.eqb_refl.
Qed.

(** C3. When the provider does not answer the verification of a webhook
    delivery with the status SUCCESS (another status, none, or an error
    thrown by the call), [verifyWebhookSignature] returns [false] without
    throwing, and the webhook route answers 401 "Invalid webhook
    signature", leaving every user document and every content untouched. *)
Theorem webhook_unverified_rejected :
  forall (env : Env.t) (h : PaypalApi.headers) (event : Event.t) (w : world),
    Env.execute_verify env
      (PaypalApi.verifyBody (Env.PAYPAL_WEBHOOK_ID env) event h)
    <> Ok (Some "SUCCESS") ->
    fst (PaypalApi.verifyWebhookSignature env (Env.PAYPAL_WEBHOOK_ID env)
           event h w) = Ok false /\
    let (r, w') := PaymentRoutes.webhook env h event w in
    r = PaymentRoutes.msg 401 "Invalid webhook signature" /\
    users w' = users w /\ contents w' = contents w.
Proof.
  intros env h event w Hnot.
  assert (Hfalse :
    match Env.execute_verify env
            (PaypalApi.verifyBody (Env.PAYPAL_WEBHOOK_ID env) event h) with
    | Ok status => Js.is_lit status "SUCCESS"
    | Throw _ => false
    end = false).
  { destruct (Env.execute_verify env _) as [status|e]; [|reflexivity].
    destruct (Js.is_lit status "SUCCESS") eqn:E; [|reflexivity].
    apply is_lit_spec in E. now subst. }
  split.
  - rewrite verifyWebhookSignature_run. simpl. now rewrite Hfalse.
  - unfold PaymentRoutes.webhook. monad.
    rewrite verifyWebhookSignature_run, Hfalse. simpl. repeat split.
Qed.

Lemma webhook_unverified_rejected_witness :
  let env := Scenario.sandbox_env Scenario.t0 (Throw "certificate not found") in
  let w := Scenario.world_of [Scenario.paid "u1" "premium"
                                (Scenario.t0 + Scenario.day) 200 3] in
  fst (PaypalApi.verifyWebhookSignature env (Env.PAYPAL_WEBHOOK_ID env)
         (Scenario.refunded_event "O1") [] w) = Ok false /\
  let (r, w') := PaymentRoutes.webhook env [] (Scenario.refunded_event "O1") w in
  r = PaymentRoutes.msg 401 "Invalid webhook signature" /\
  users w' = users w /\ contents w' = contents w.
Proof.
  apply (webhook_unverified_rejected
           (Scenario.sandbox_env Scenario.t0 (Throw "certificate not found"))
           [] (Scenario.refunded_event "O1")
           (Scenario.world_of [Scenario.paid "u1" "premium"
                                 (Scenario.t0 + Scenario.day) 200 3])).
  simpl. discriminate.
Defined.

(** ** Expiry *)

(** C4. For a premium user whose endDate lies strictly before now, GET
    /subscription answers with status free and usageLimit 5, and the user
    document in the store has been rewritten to the free plan (usageLimit
    5, no dates, customerId kept) before the answer is given. *)
Theorem get_subscription_expired_premium :
  forall (env : Env.t) (w : world) (uid : string) (u : User.t) (d : Z),
    Scenario.user_of uid w = Some u ->
    Subscription.status (User.subscription u) = Some "premium" ->
    Subscription.endDate (User.subscription u) = Some d ->
    d < Env.now env ->
    let (r, w') := PaymentRoutes.get_subscription env (Decoded uid) w in
    r = res_json
          (JObj [("subscription",
                  JObj [("status", JStr "free"); ("planId", JStr "free");
                        ("startDate", JNull); ("endDate", JNull);
                        ("isActive", JBool true)]);
                 ("usageLimit", JNum 5);
                 ("usageCount", JNum (User.usageCount u))]) /\
    Scenario.user_of uid w'
    = Some (PaymentRoutes.revert_to_free
              (Subscription.customerId (User.subscription u)) u) /\
    (forall u', Scenario.user_of uid w' = Some u' ->
       Subscription.status (User.subscription u') = Some "free" /\
       User.usageLimit u' = 5).
Proof.
  intros env w uid u d Hu _ Hend Hlt.
  unfold Scenario.user_of in *.
  unfold PaymentRoutes.get_subscription. monad. rewrite Hu. monad.
  rewrite (find_has_id _ _ _ Hu), Hu. rewrite Hend.
  unfold past. apply Z.ltb_lt in Hlt. rewrite Hlt. cbv beta iota.
  cbn [users]. rewrite (find_has_id _ _ _ Hu).
  rewrite find_update_first by reflexivity. rewrite Hu.
  cbn [option_map]. repeat split.
  - injection H as <-. reflexivity.
  - injection H as <-. reflexivity.
Qed.

Lemma get_subscription_expired_premium_witness :
  let env := Scenario.sandbox_env Scenario.t0 (Ok (Some "SUCCESS")) in
  let u := Scenario.paid "u1" "premium" (Scenario.t0 - Scenario.day) 200 7 in
  let (r, w') :=
    PaymentRoutes.get_subscription env (Decoded "u1") (Scenario.world_of [u]) in
  r = res_json
        (JObj [("subscription",
                JObj [("status", JStr "free"); ("planId", JStr "free");
                      ("startDate", JNull); ("endDate", JNull);
                      ("isActive", JBool true)]);
               ("usageLimit", JNum 5);
               ("usageCount", JNum (User.usageCount u))]) /\
  Scenario.user_of "u1" w'
  = Some (PaymentRoutes.revert_to_free
            (Subscription.customerId (User.subscription u)) u) /\
  (forall u', Scenario.user_of "u1" w' = Some u' ->
     Subscription.status (User.subscription u') = Some "free" /\
     User.usageLimit u' = 5).
Proof.
  apply (get_subscription_expired_premium
           (Scenario.sandbox_env Scenario.t0 (Ok (Some "SUCCESS")))
           (Scenario.world_of
              [Scenario.paid "u1" "premium" (Scenario.t0 - Scenario.day) 200 7])
           "u1"
           (Scenario.paid "u1" "premium" (Scenario.t0 - Scenario.day) 200 7)
           (Scenario.t0 - Scenario.day)).
  - reflexivity.
  - reflexivity.
  - reflexivity.
  - vm_compute. reflexivity.
Defined.


(** C5. The entitlement guard at a stale record: a basic user whose
    endDate was yesterday, with the basic quota of 50.  The guard answers
    403 and stores status free, but the stored usageLimit is still 50
    while the free tier's quota is 5, and endDate is still set. *)
Theorem checkSubscription_expiry_keeps_paid_quota :
  let env := Scenario.sandbox_env Scenario.t0 (Ok (Some "SUCCESS")) in
  let u := Scenario.paid "u1" "basic" (Scenario.t0 - Scenario.day) 50 0 in
  let (r, w') := checkSubscription env (Some u) (Scenario.world_of [u]) in
  Scenario.user_of "u1" w' = Some (set_status (Some "free") u) /\
  option_map User.usageLimit (Scenario.user_of "u1" w') = Some 50 /\
  Plans.quota "free" = Some 5 /\
  option_map (fun x => Subscription.endDate (User.subscription x))
    (Scenario.user_of "u1" w')
  = Some (Some (Scenario.t0 - Scenario.day)).
Proof.
  vm_compute. repeat split.
Qed.

(** ** Quota gate *)

(** C6. For a user whose status is free the entitlement guard answers 403
    (usage limit reached) exactly when usageCount >= usageLimit and calls
    next() otherwise; in both cases the world, and so usageCount, is
    unchanged. *)
Theorem checkSubscription_free_quota :
  forall (env : Env.t) (u : User.t) (w : world),
    Subscription.status (User.subscription u) = Some "free" ->
    checkSubscription env (Some u) w
    = (Ok (if User.usageLimit u <=? User.usageCount u
           then Respond (status_json 403
                  (JObj [("msg", JStr "Free tier usage limit reached. Please upgrade your subscription.");
                         ("limitReached", JBool true)]))
           else Next tt),
       w).
Proof.
  intros env u w Hfree. unfold checkSubscription. monad.
  rewrite Hfree. cbn [Js.is_lit Js.one_of existsb].
  change (String.eqb "free" "free") with true.
  change (String.eqb "free" "basic") with false.
  change (String.eqb "free" "premium") with false.
  cbn [andb orb].
  now destruct (User.usageLimit u <=? User.usageCount u).
Qed.

Lemma checkSubscription_free_quota_witness :
  let env := Scenario.sandbox_env Scenario.t0 (Ok (Some "SUCCESS")) in
  let at_limit := User.mk "u1" (User.subscription (Scenario.fresh "u1"))
                    (User.payment (Scenario.fresh "u1")) 5 5 in
  let below := User.mk "u1" (User.subscription (Scenario.fresh "u1"))
                 (User.payment (Scenario.fresh "u1")) 5 4 in
  checkSubscription env (Some at_limit) (Scenario.world_of [at_limit])
  = (Ok (Respond (status_json 403
           (JObj [("msg", JStr "Free tier usage limit reached. Please upgrade your subscription.");
                  ("limitReached", JBool true)]))),
     Scenario.world_of [at_limit]) /\
  checkSubscription env (Some below) (Scenario.world_of [below])
  = (Ok (Next tt), Scenario.world_of [below]).
Proof.
  split.
  - exact (checkSubscription_free_quota
             (Scenario.sandbox_env Scenario.t0 (Ok (Some "SUCCESS")))
             (User.mk "u1" (User.subscription (Scenario.fresh "u1"))
                (User.payment (Scenario.fresh "u1")) 5 5)
             _ eq_refl).
  - exact (checkSubscription_free_quota
             (Scenario.sandbox_env Scenario.t0 (Ok (Some "SUCCESS")))
             (User.mk "u1" (User.subscription (Scenario.fresh "u1"))
                (User.payment (Scenario.fresh "u1")) 5 4)
             _ eq_refl).
Defined.

(** ** The webhook paths against the capture path *)

(** C7. A free user orders premium in the sandbox; the verified
    PAYMENT.CAPTURE.COMPLETED webhook for that very order finds no user
    (the handler queries subscription.orderId, create-order wrote
    payment.pendingOrderId) and the user stays free.  And for a document
    that does carry the order id under subscription.orderId, with premium
    recorded in the pending-payment slot, the handler applies basic with
    quota 50: it reads subscription.pendingPlanId, which nothing writes. *)
Theorem webhook_completed_misses_pending_payment :
  let env := Scenario.sandbox_env Scenario.t0 (Ok (Some "SUCCESS")) in
  let oid := "TEST-ORDER-" ++ Js.decimal Scenario.t0 in
  let (r1, w1) :=
    PaymentRoutes.create_order env (Decoded "u1") (Some "premium")
      (Scenario.world_of [Scenario.fresh "u1"]) in
  let (r2, w2) := PaymentRoutes.webhook env [] (Scenario.completed_event oid) w1 in
  (r1 = res_json (JObj [("success", JBool true); ("orderId", JStr oid)]) /\
   Scenario.user_of "u1" w1
   = Some (PaymentRoutes.set_pending (Some oid) (Some "premium")
             (Scenario.fresh "u1")) /\
   r2 = PaymentRoutes.msg 200 "Webhook received" /\
   users w2 = users w1) /\
  let linked :=
    User.mk "u2"
      (Subscription.mk (Some "free") None None (Some "O2") None None None None)
      (Payment.mk (Some "O2") (Some "premium") None None) 5 0 in
  let (r3, w3) :=
    PaymentRoutes.webhook env [] (Scenario.completed_event "O2")
      (Scenario.world_of [linked]) in
  option_map (fun x => Subscription.status (User.subscription x))
    (Scenario.user_of "u2" w3) = Some (Some "basic") /\
  option_map User.usageLimit (Scenario.user_of "u2" w3) = Some 50.
Proof.
  vm_compute. repeat split.
Qed.

(** C8. A capture of a premium order writes usageLimit 200 where the plan
    catalog gives premium 9999; and [handleCompletedPayment] has no
    rejecting branch: a pending plan id outside the catalog is written as
    the status, with usageLimit 10. *)
Theorem capture_quota_differs_from_catalog :
  let env := Scenario.sandbox_env Scenario.t0 (Ok (Some "SUCCESS")) in
  let oid := "TEST-ORDER-" ++ Js.decimal Scenario.t0 in
  let (r1, w1) :=
    PaymentRoutes.create_order env (Decoded "u1") (Some "premium")
      (Scenario.world_of [Scenario.fresh "u1"]) in
  let (r2, w2) := PaymentRoutes.capture_order env (Decoded "u1") (Some oid) w1 in
  (code r2 = 200 /\
   option_map User.usageLimit (Scenario.user_of "u1" w2) = Some 200 /\
   Plans.quota "premium" = Some 9999) /\
  let odd := PaymentRoutes.set_pending (Some "TEST-ORDER-7") (Some "gold")
               (Scenario.fresh "u2") in
  let (r3, w3) :=
    PaymentRoutes.capture_order env (Decoded "u2") (Some "TEST-ORDER-7")
      (Scenario.world_of [odd]) in
  code r3 = 200 /\
  option_map (fun x => Subscription.status (User.subscription x))
    (Scenario.user_of "u2" w3) = Some (Some "gold") /\
  option_map User.usageLimit (Scenario.user_of "u2" w3) = Some 10 /\
  Plans.quota "gold" = None.
Proof.
  vm_compute. repeat split.
Qed.

(** C9. A user becomes premium through create-order and capture-order;
    the verified PAYMENT.CAPTURE.REFUNDED webhook for that order is
    answered 200 and finds no user, so the subscription stays premium
    with the quota of the capture. *)
Theorem webhook_refund_misses_captured_order :
  let env := Scenario.sandbox_env Scenario.t0 (Ok (Some "SUCCESS")) in
  let oid := "TEST-ORDER-" ++ Js.decimal Scenario.t0 in
  let (r1, w1) :=
    PaymentRoutes.create_order env (Decoded "u1") (Some "premium")
      (Scenario.world_of [Scenario.fresh "u1"]) in
  let (r2, w2) := PaymentRoutes.capture_order env (Decoded "u1") (Some oid) w1 in
  let (r3, w3) := PaymentRoutes.webhook env [] (Scenario.refunded_event oid) w2 in
  let (r4, w4) := PaymentRoutes.get_subscription env (Decoded "u1") w3 in
  code r2 = 200 /\
  r3 = PaymentRoutes.msg 200 "Webhook received" /\
  users w3 = users w2 /\
  option_map (fun x => Subscription.status (User.subscription x))
    (Scenario.user_of "u1" w3) = Some (Some "premium") /\
  option_map User.usageLimit (Scenario.user_of "u1" w3) = Some 200 /\
  exists rest,
    r4 = res_json
           (JObj (("subscription",
                   JObj [("status", JStr "premium"); ("planId", JStr "premium");
                         ("startDate", JDate Scenario.t0);
                         ("endDate", JDate (Scenario.t0 + 30 * Scenario.day));
                         ("isActive", JBool true);
                         ("daysRemaining", JNum 30)]) :: rest)).
Proof.
  vm_compute. repeat split. eexists. reflexivity.
Qed.

(** ** The guard in front of content generation *)

Lemma checkSubscription_cases (env : Env.t) (u : User.t) (w : world) :
  checkSubscription env (Some u) w = (Ok (Next tt), w) \/
  (exists g, checkSubscription env (Some u) w = (Ok (Respond g), w)) \/
  (exists g, checkSubscription env (Some u) w
             = (Ok (Respond g),
                mkWorld (Mongo.update_first (Mongo.has_id (User._id u))
                           (set_status (Some "free")) (users w))
                        (contents w) (gateway w))).
Proof.
  unfold checkSubscription. monad.
  destruct (Js.is_lit (Subscription.status (User.subscription u)) "free"
            && (User.usageLimit u <=? User.usageCount u))%bool.
  - right. left. eexists. reflexivity.
  - destruct (Js.one_of ["basic"; "premium"]
                (Subscription.status (User.subscription u))
              && past env (Subscription.endDate (User.subscription u)))%bool.
    + right. right. eexists. reflexivity.
    + left. reflexivity.
Qed.

Lemma api_error_code (message : string) :
  code (ContentRoutes.api_error message) <> 200.
Proof.
  unfold ContentRoutes.api_error.
  destruct (Js.includes message "API key"); [discriminate|].
  destruct (Js.includes message "Rate limit"); discriminate.
Qed.

(** What the handler of /generate does once the guard has let the
    request through: either it answers 200 with the saved content and
    the usage count of the user is one higher, or it answers another
    code and the world is unchanged. *)
Lemma generate_handler_run (env : Env.t) (u : User.t)
    (prompt contentType : option string) (w : world) :
  exists r w',
    ContentRoutes.generate_handler env u prompt contentType w = (Ok r, w') /\
    ((code r <> 200 /\ w' = w) \/
     (exists p text,
        prompt = Some p /\ p <> "" /\
        Env.generateContent env p (Js.or_else contentType "other") None
        = Ok text /\
        let c := Content.mk (Env.newObjectId env) (User._id u) p text
                   (Js.or_else contentType "other") (Env.now env) in
        r = res_json (Content.to_json c) /\
        w' = mkWorld (Mongo.update_first (Mongo.has_id (User._id u))
                        ContentRoutes.inc_usageCount (users w))
                     (contents w ++ [c]) (gateway w))).
Proof.
  unfold ContentRoutes.generate_handler. monad.
  destruct prompt as [p|].
  2:{ do 2 eexists. split; [reflexivity|]. left. split; [discriminate|reflexivity]. }
  cbn [Js.truthy]. destruct (String.eqb p "") eqn:Ep; cbn [negb]; cbv beta iota.
  { do 2 eexists. split; [reflexivity|]. left. split; [discriminate|reflexivity]. }
  destruct (Env.readyState env =? 1); cbn [negb]; cbv beta iota.
  2:{ do 2 eexists. split; [reflexivity|]. left. split; [discriminate|reflexivity]. }
  destruct (Env.generateContent env p (Js.or_else contentType "other") None)
    as [text|e] eqn:Eg.
  2:{ do 2 eexists. split; [reflexivity|]. left.
      split; [apply api_error_code|reflexivity]. }
  unfold ContentRoutes.save.
  destruct (ContentRoutes.validation_error _) as [e|] eqn:Ev.
  { monad. do 2 eexists. split; [reflexivity|]. left.
    split; [apply api_error_code|reflexivity]. }
  monad. cbn [users contents gateway].
  do 2 eexists. split; [reflexivity|]. right.
  exists p, text. apply String.eqb_neq in Ep. repeat split; assumption.
Qed.

(** The handler of /generate on its successful path: a non-empty prompt,
    the database connected, a text returned by the generator and a
    document that passes validation give the 200 answer with the saved
    content, the content appended to the collection and the usage count
    of the user incremented. *)
Lemma generate_handler_success (env : Env.t) (u : User.t) (p text : string)
    (contentType : option string) (w : world) :
  p <> "" ->
  Env.readyState env = 1 ->
  Env.generateContent env p (Js.or_else contentType "other") None = Ok text ->
  ContentRoutes.validation_error
    (Content.mk (Env.newObjectId env) (User._id u) p text
       (Js.or_else contentType "other") (Env.now env)) = None ->
  ContentRoutes.generate_handler env u (Some p) contentType w
  = (Ok (res_json
           (Content.to_json
              (Content.mk (Env.newObjectId env) (User._id u) p text
                 (Js.or_else contentType "other") (Env.now env)))),
     mkWorld (Mongo.update_first (Mongo.has_id (User._id u))
                ContentRoutes.inc_usageCount (users w))
             (contents w ++ [Content.mk (Env.newObjectId env) (User._id u) p text
                               (Js.or_else contentType "other") (Env.now env)])
             (gateway w)).
Proof.
  intros Hp Hready Hg Hval. apply String.eqb_neq in Hp.
  unfold ContentRoutes.generate_handler. monad.
  cbn [Js.truthy]. rewrite Hp, Hready. cbn [negb Z.eqb Pos.eqb]. cbv beta iota.
  rewrite Hg. unfold ContentRoutes.save. rewrite Hval. monad.
  reflexivity.
Qed.

(** C10. For an authenticated user, whatever the subscription and usage:
    POST /test-gemini leaves the world exactly as it was and, for a
    non-empty prompt that the generator answers, returns the generated
    text; the guard is not run.  POST /generate answers with the guard's
    response when the guard refuses, the usage count being unchanged.
    When the guard lets the request through: a non-empty prompt, a
    connected database, a text returned by the generator and a document
    that passes validation give the answer 200 with the saved content,
    the content appended to the stored contents and the usage count of
    the user one higher; conversely an answer 200 is only given with a
    generated text that was saved and a usage count one higher; and any
    other answer leaves the world unchanged. *)
Theorem test_gemini_ungated_generate_gated :
  forall (env : Env.t) (w : world) (uid : string) (u : User.t)
         (prompt contentType options : option string),
    Scenario.user_of uid w = Some u ->
    (let (r, w') :=
       ContentRoutes.test_gemini env (Decoded uid) prompt contentType options w in
     w' = w /\
     forall p text,
       prompt = Some p -> p <> "" ->
       Env.generateContent env p (Js.or_else contentType "other") options
       = Ok text ->
       r = res_json
             (JObj [("success", JBool true);
                    ("generatedContent", JStr text);
                    ("contentType", JStr (Js.or_else contentType "other"));
                    ("length", JNum (Z.of_nat (String.length text)));
                    ("timestamp", JDate (Env.now env))])) /\
    (let (r, w') :=
       ContentRoutes.generate env (Decoded uid) prompt contentType w in
     (forall g,
        fst (checkSubscription env (Some u) w) = Ok (Respond g) ->
        r = g /\ w' = snd (checkSubscription env (Some u) w) /\
        contents w' = contents w /\
        option_map User.usageCount (Scenario.user_of uid w')
        = Some (User.usageCount u)) /\
     (fst (checkSubscription env (Some u) w) = Ok (Next tt) ->
      (forall p text,
         prompt = Some p -> p <> "" ->
         Env.readyState env = 1 ->
         Env.generateContent env p (Js.or_else contentType "other") None
         = Ok text ->
         let c := Content.mk (Env.newObjectId env) uid p text
                    (Js.or_else contentType "other") (Env.now env) in
         ContentRoutes.validation_error c = None ->
         r = res_json (Content.to_json c) /\
         code r = 200 /\
         contents w' = (contents w ++ [c])%list /\
         users w' = Mongo.update_first (Mongo.has_id uid)
                      ContentRoutes.inc_usageCount (users w) /\
         gateway w' = gateway w /\
         option_map User.usageCount (Scenario.user_of uid w')
         = Some (User.usageCount u + 1)) /\
      (code r <> 200 -> w' = w) /\
      (code r = 200 ->
       option_map User.usageCount (Scenario.user_of uid w')
       = Some (User.usageCount u + 1) /\
       exists p text,
         prompt = Some p /\ p <> "" /\
         Env.generateContent env p (Js.or_else contentType "other") None
         = Ok text /\
         let c := Content.mk (Env.newObjectId env) uid p text
                    (Js.or_else contentType "other") (Env.now env) in
         contents w' = (contents w ++ [c])%list /\
         r = res_json (Content.to_json c) /\
         users w' = Mongo.update_first (Mongo.has_id uid)
                      ContentRoutes.inc_usageCount (users w)))).
Proof.
  intros env w uid u prompt contentType options Hu.
  unfold Scenario.user_of in *.
  pose proof (find_has_id _ _ _ Hu) as Hid. subst uid.
  split.
  - unfold ContentRoutes.test_gemini. monad. rewrite Hu. monad.
    destruct prompt as [p|]; [|split; [reflexivity|discriminate]].
    cbn [Js.truthy]. destruct (String.eqb p "") eqn:Ep; cbn [negb]; cbv beta iota.
    + split; [reflexivity|]. intros p' text [= <-] Hne.
      apply String.eqb_eq in Ep. contradiction.
    + destruct (Env.generateContent env p (Js.or_else contentType "other")
                  options) as [text|e] eqn:Eg.
      * split; [reflexivity|]. intros p' text' [= <-] _ Hg.
        rewrite Eg in Hg. now injection Hg as <-.
      * split; [reflexivity|]. intros p' text' [= <-] _ Hg.
        rewrite Eg in Hg. discriminate.
  - unfold ContentRoutes.generate. monad. rewrite Hu. monad.
    destruct (checkSubscription_cases env u w) as [E|[[g E]|[g E]]];
      rewrite E; cbn [fst snd].
    + destruct (generate_handler_run env u prompt contentType w)
        as (r & w' & Hrun & Hout).
      rewrite Hrun. split; [discriminate|]. intros _.
      split.
      { intros p text Hp Hne Hready Hg Hval. subst prompt.
        rewrite (generate_handler_success env u p text contentType w
                   Hne Hready Hg Hval) in Hrun.
        injection Hrun as <- <-. cbn [users contents gateway].
        rewrite find_update_first by reflexivity. rewrite Hu.
        repeat split. }
      destruct Hout as [[Hcode Hw]|(p & text & Hp & Hne & Hg & Hout)].
      * subst w'. split; [reflexivity|]. intro. contradiction.
      * cbv zeta in Hout. destruct Hout as [Hr Hw]. subst w' prompt.
        split; [intro Hc; exfalso; apply Hc; rewrite Hr; reflexivity|].
        intros _. cbn [users contents].
        rewrite find_update_first by reflexivity. rewrite Hu. split.
        { reflexivity. }
        exists p, text. repeat split; assumption.
    + split; [|discriminate]. intros g' [= <-]. repeat split.
      now rewrite Hu.
    + split; [|discriminate]. intros g' [= <-]. cbn [users contents].
      repeat split.
      rewrite find_update_first by reflexivity. now rewrite Hu.
Qed.

Lemma test_gemini_ungated_generate_gated_witness :
  let env := Scenario.sandbox_env Scenario.t0 (Ok (Some "SUCCESS")) in
  let at_limit := User.mk "u1" (User.subscription (Scenario.fresh "u1"))
                    (User.payment (Scenario.fresh "u1")) 5 5 in
  let below := User.mk "u1" (User.subscription (Scenario.fresh "u1"))
                 (User.payment (Scenario.fresh "u1")) 5 4 in
  let c := Content.mk "c1" "u1" "hello" "Generated: hello" "blog" Scenario.t0 in
  let tested :=
    ContentRoutes.test_gemini env (Decoded "u1") (Some "hello") None None
      (Scenario.world_of [at_limit]) in
  let refused :=
    ContentRoutes.generate env (Decoded "u1") (Some "hello") (Some "blog")
      (Scenario.world_of [at_limit]) in
  let generated :=
    ContentRoutes.generate env (Decoded "u1") (Some "hello") (Some "blog")
      (Scenario.world_of [below]) in
  (snd tested = Scenario.world_of [at_limit] /\
   fst tested
   = res_json
       (JObj [("success", JBool true);
              ("generatedContent", JStr "Generated: hello");
              ("contentType", JStr "other");
              ("length", JNum 16);
              ("timestamp", JDate Scenario.t0)])) /\
  (code (fst refused) = 403 /\
   option_map User.usageCount (Scenario.user_of "u1" (snd refused)) = Some 5) /\
  (fst generated = res_json (Content.to_json c) /\
   code (fst generated) = 200 /\
   contents (snd generated) = [c] /\
   option_map User.usageCount (Scenario.user_of "u1" (snd generated)) = Some 5).
Proof.
  cbv zeta. split; [|split].
  - pose proof (id
                  (proj1 (test_gemini_ungated_generate_gated
                            (Scenario.sandbox_env Scenario.t0 (Ok (Some "SUCCESS")))
                            (Scenario.world_of
                               [User.mk "u1" (User.subscription (Scenario.fresh "u1"))
                                  (User.payment (Scenario.fresh "u1")) 5 5])
                            "u1" _ (Some "hello") None None eq_refl))) as H.
    destruct H as [Hw Hr]. split; [exact Hw|].
    exact (Hr "hello" "Generated: hello" eq_refl ltac:(discriminate) eq_refl).
  - pose proof (id
                  (proj2 (test_gemini_ungated_generate_gated
                            (Scenario.sandbox_env Scenario.t0 (Ok (Some "SUCCESS")))
                            (Scenario.world_of
                               [User.mk "u1" (User.subscription (Scenario.fresh "u1"))
                                  (User.payment (Scenario.fresh "u1")) 5 5])
                            "u1" _ (Some "hello") (Some "blog") None eq_refl))) as H.
    destruct H as [Hdeny _].
    destruct (Hdeny _ eq_refl) as (Hr & _ & _ & Hcount).
    split; [exact (f_equal code Hr)|exact Hcount].
  - pose proof (id
                  (proj2 (test_gemini_ungated_generate_gated
                            (Scenario.sandbox_env Scenario.t0 (Ok (Some "SUCCESS")))
                            (Scenario.world_of
                               [User.mk "u1" (User.subscription (Scenario.fresh "u1"))
                                  (User.payment (Scenario.fresh "u1")) 5 4])
                            "u1" _ (Some "hello") (Some "blog") None eq_refl))) as H.
    destruct H as [_ Hnext].
    destruct (Hnext eq_refl) as (Hok & _ & _).
    destruct (Hok "hello" "Generated: hello" eq_refl ltac:(discriminate)
                eq_refl eq_refl eq_refl)
      as (Hr & Hcode & Hcontents & _ & _ & Hcount).
    split; [exact Hr|split; [exact Hcode|split; [exact Hcontents|exact Hcount]]].
Defined.

(** * Further properties of the handlers *)

(** ** Creating an order *)

(** X1. A create-order request whose plan id is missing or is not one of
    basic and premium is answered 400 "Invalid plan selected"; the gateway
    client is not called and nothing is stored. *)
Theorem create_order_invalid_plan :
  forall (env : Env.t) (w : world) (uid : string) (u : User.t)
         (planId : option string),
    Scenario.user_of uid w = Some u ->
    Js.one_of ["basic"; "premium"] planId = false ->
    PaymentRoutes.create_order env (Decoded uid) planId w
    = (PaymentRoutes.msg 400 "Invalid plan selected", w).
Proof.
  intros env w uid u planId Hu Hplan. unfold Scenario.user_of in Hu.
  unfold PaymentRoutes.create_order. monad. rewrite Hu. monad.
  rewrite Hplan. cbn [negb]. now rewrite orb_true_r.
Qed.

Lemma create_order_invalid_plan_witness :
  PaymentRoutes.create_order
    (Scenario.sandbox_env Scenario.t0 (Ok (Some "SUCCESS")))
    (Decoded "u1") (Some "free") (Scenario.world_of [Scenario.fresh "u1"])
  = (PaymentRoutes.msg 400 "Invalid plan selected",
     Scenario.world_of [Scenario.fresh "u1"]).
Proof.
  exact (create_order_invalid_plan
           (Scenario.sandbox_env Scenario.t0 (Ok (Some "SUCCESS")))
           (Scenario.world_of [Scenario.fresh "u1"]) "u1" _ (Some "free")
           eq_refl eq_refl).
Defined.

Lemma paid_plan_cases (p : string) :
  p = "basic" \/ p = "premium" ->
  (String.eqb p "basic" || String.eqb p "premium")%bool = true /\
  Js.truthy (Some p) = true /\
  Js.one_of ["basic"; "premium"] (Some p) = true.
Proof.
  intros [->| ->]; repeat split.
Qed.

(** X2. In sandbox mode (no PayPal client id, or the id sb) a
    create-order request for basic or premium succeeds without any
    provider: the order id is TEST-ORDER- followed by the time of the
    request, and the only change to the store is that the user's pending
    order id and pending plan id are set (an earlier pending order is
    overwritten); subscription and usage are as before. *)
Theorem create_order_sandbox :
  forall (env : Env.t) (w : world) (uid p : string) (u : User.t),
    Scenario.user_of uid w = Some u ->
    PaypalApi.sandbox env = true ->
    p = "basic" \/ p = "premium" ->
    let oid := "TEST-ORDER-" ++ Js.decimal (Env.now env) in
    PaymentRoutes.create_order env (Decoded uid) (Some p) w
    = (res_json (JObj [("success", JBool true); ("orderId", JStr oid)]),
       mkWorld
         (Mongo.update_first (Mongo.has_id uid)
            (PaymentRoutes.set_pending (Some oid) (Some p)) (users w))
         (contents w) (gateway w ++ [CreateOrder p uid])) /\
    Scenario.user_of uid
      (snd (PaymentRoutes.create_order env (Decoded uid) (Some p) w))
    = Some (User.mk uid (User.subscription u)
              (Payment.mk (Some oid) (Some p)
                 (Payment.lastPaymentDate (User.payment u))
                 (Payment.lastPaymentAmount (User.payment u)))
              (User.usageLimit u) (User.usageCount u)).
Proof.
  intros env w uid p u Hu Hsb Hp oid.
  destruct (paid_plan_cases p Hp) as (Hvalid & Htruthy & Hone).
  unfold Scenario.user_of in *.
  pose proof (find_has_id _ _ _ Hu) as Hid.
  assert (E : PaymentRoutes.create_order env (Decoded uid) (Some p) w
    = (res_json (JObj [("success", JBool true); ("orderId", JStr oid)]),
       mkWorld
         (Mongo.update_first (Mongo.has_id uid)
            (PaymentRoutes.set_pending (Some oid) (Some p)) (users w))
         (contents w) (gateway w ++ [CreateOrder p uid]))).
  { unfold PaymentRoutes.create_order. monad. rewrite Hu. monad.
    rewrite Htruthy, Hone. cbn [negb orb]. cbv beta iota.
    unfold PaypalApi.createOrder. monad.
    rewrite Hvalid, Hsb. cbv beta iota. cbn [PaypalApi.order_id].
    rewrite Hid. reflexivity. }
  split; [exact E|]. rewrite E. cbn [snd users].
  rewrite find_update_first by reflexivity. rewrite Hu.
  unfold PaymentRoutes.set_pending. cbn [option_map]. now rewrite Hid.
Qed.

Lemma create_order_sandbox_witness :
  let env := Scenario.sandbox_env Scenario.t0 (Ok (Some "SUCCESS")) in
  Scenario.user_of "u1"
    (snd (PaymentRoutes.create_order env (Decoded "u1") (Some "basic")
            (Scenario.world_of [Scenario.fresh "u1"])))
  = Some (User.mk "u1" (User.subscription (Scenario.fresh "u1"))
            (Payment.mk (Some "TEST-ORDER-1700000000000") (Some "basic")
               None None)
            5 0).
Proof.
  exact (proj2 (create_order_sandbox
                  (Scenario.sandbox_env Scenario.t0 (Ok (Some "SUCCESS")))
                  (Scenario.world_of [Scenario.fresh "u1"]) "u1" "basic"
                  (Scenario.fresh "u1") eq_refl eq_refl (or_introl eq_refl))).
Defined.

(** X3. Outside sandbox mode [createOrder] never reaches PayPal: it calls
    [prefer] on the plain request object it has just built, which throws,
    so every create-order request for a valid plan is answered 500 and no
    pending order is stored. *)
Theorem create_order_live_fails :
  forall (env : Env.t) (w : world) (uid p : string) (u : User.t),
    Scenario.user_of uid w = Some u ->
    PaypalApi.sandbox env = false ->
    p = "basic" \/ p = "premium" ->
    let (r, w') := PaymentRoutes.create_order env (Decoded uid) (Some p) w in
    r = PaymentRoutes.server_error "request.prefer is not a function" /\
    users w' = users w /\ contents w' = contents w.
Proof.
  intros env w uid p u Hu Hsb Hp.
  destruct (paid_plan_cases p Hp) as (Hvalid & Htruthy & Hone).
  unfold Scenario.user_of in *.
  unfold PaymentRoutes.create_order. monad. rewrite Hu. monad.
  rewrite Htruthy, Hone. cbn [negb orb]. cbv beta iota.
  unfold PaypalApi.createOrder. monad.
  rewrite Hvalid, Hsb. cbv beta iota. repeat split.
Qed.

Lemma create_order_live_fails_witness :
  let (r, w') :=
    PaymentRoutes.create_order
      (Scenario.live_env Scenario.t0 (Ok (Some "COMPLETED")))
      (Decoded "u1") (Some "premium")
      (Scenario.world_of [Scenario.fresh "u1"]) in
  r = PaymentRoutes.server_error "request.prefer is not a function" /\
  users w' = users (Scenario.world_of [Scenario.fresh "u1"]) /\
  contents w' = contents (Scenario.world_of [Scenario.fresh "u1"]).
Proof.
  exact (create_order_live_fails
           (Scenario.live_env Scenario.t0 (Ok (Some "COMPLETED")))
           (Scenario.world_of [Scenario.fresh "u1"]) "u1" "premium"
           (Scenario.fresh "u1") eq_refl eq_refl (or_intror eq_refl)).
Defined.

(** ** From order to active plan *)




(** X5. A capture that does not complete changes no user: when the
    pending order matches but the gateway answers with a status other than
    COMPLETED the request is answered 400 "Payment not completed" with
    that status, when the gateway call throws it is answered 500 with the
    error message; in both cases the pending order stays in place, so the
    capture can be tried again. *)
Theorem capture_order_not_completed :
  forall (env : Env.t) (w : world) (uid oid : string) (u : User.t),
    Scenario.user_of uid w = Some u ->
    oid <> "" ->
    Payment.pendingOrderId (User.payment u) = Some oid ->
    fst (PaypalApi.captureOrder env oid w) <> Ok (Some "COMPLETED") ->
    let (r, w') := PaymentRoutes.capture_order env (Decoded uid) (Some oid) w in
    r = match fst (PaypalApi.captureOrder env oid w) with
        | Ok capture_status =>
            status_json 400
              (JObj [("success", JBool false);
                     ("msg", JStr "Payment not completed");
                     ("status", jstr capture_status)])
        | Throw message => PaymentRoutes.server_error message
        end /\
    users w' = users w /\ contents w' = contents w /\
    gateway w' = (gateway w ++ [CaptureOrder oid])%list.
Proof.
  intros env w uid oid u Hu Hoid Hpend Hcap. unfold Scenario.user_of in Hu.
  pose proof (captureOrder_world env oid w) as Hw.
  unfold PaymentRoutes.capture_order. monad. rewrite Hu. monad.
  rewrite (truthy_nonempty _ Hoid). cbn [negb]. cbv beta iota.
  rewrite (find_has_id _ _ _ Hu), Hu, Hpend.
  cbn [Js.strict_eq]. rewrite String.eqb_refl. cbn [negb]. cbv beta iota.
  destruct (PaypalApi.captureOrder env oid w) as [r w1].
  cbn [fst snd] in *. subst w1.
  destruct r as [capture_status|message].
  - destruct (Js.is_lit capture_status "COMPLETED") eqn:E.
    + apply is_lit_spec in E. subst. contradiction.
    + repeat split.
  - repeat split.
Qed.

Lemma capture_order_not_completed_witness :
  let env := Scenario.live_env Scenario.t0 (Ok (Some "PAYER_ACTION_REQUIRED")) in
  let w := Scenario.world_of
             [PaymentRoutes.set_pending (Some "5O190127TN364715T")
                (Some "basic") (Scenario.fresh "u1")] in
  let (r, w') :=
    PaymentRoutes.capture_order env (Decoded "u1") (Some "5O190127TN364715T") w in
  r = match fst (PaypalApi.captureOrder env "5O190127TN364715T" w) with
      | Ok capture_status =>
          status_json 400
            (JObj [("success", JBool false);
                   ("msg", JStr "Payment not completed");
                   ("status", jstr capture_status)])
      | Throw message => PaymentRoutes.server_error message
      end /\
  users w' = users w /\ contents w' = contents w /\
  gateway w' = (gateway w ++ [CaptureOrder "5O190127TN364715T"])%list.
Proof.
  apply (capture_order_not_completed
           (Scenario.live_env Scenario.t0 (Ok (Some "PAYER_ACTION_REQUIRED")))
           (Scenario.world_of
              [PaymentRoutes.set_pending (Some "5O190127TN364715T")
                 (Some "basic") (Scenario.fresh "u1")])
           "u1" "5O190127TN364715T"
           (PaymentRoutes.set_pending (Some "5O190127TN364715T")
              (Some "basic") (Scenario.fresh "u1"))).
  - reflexivity.
  - discriminate.
  - reflexivity.
  - vm_compute. discriminate.
Defined.

(** ** The guard on paid plans *)

Lemma paid_not_free (s : option string) :
  Js.one_of ["basic"; "premium"] s = true -> Js.is_lit s "free" = false.
Proof.
  destruct s as [v|]; [|reflexivity]. simpl.
  destruct (String.eqb v "free") eqn:E; [|reflexivity].
  apply String.eqb_eq in E. subst v. discriminate.
Qed.

(** X6. For a user on basic or premium whose endDate is absent or not yet
    passed, the entitlement guard calls next() and writes nothing,
    whatever usageCount and usageLimit are: the quota is enforced for the
    free tier only. *)
Theorem checkSubscription_paid_not_gated :
  forall (env : Env.t) (u : User.t) (w : world),
    Js.one_of ["basic"; "premium"] (Subscription.status (User.subscription u))
    = true ->
    past env (Subscription.endDate (User.subscription u)) = false ->
    checkSubscription env (Some u) w = (Ok (Next tt), w).
Proof.
  intros env u w Hpaid Hpast. unfold checkSubscription. monad.
  now rewrite (paid_not_free _ Hpaid), Hpaid, Hpast.
Qed.

Lemma checkSubscription_paid_not_gated_witness :
  let env := Scenario.sandbox_env Scenario.t0 (Ok (Some "SUCCESS")) in
  let u := Scenario.paid "u1" "basic" (Scenario.t0 + Scenario.day) 50 75 in
  checkSubscription env (Some u) (Scenario.world_of [u])
  = (Ok (Next tt), Scenario.world_of [u]).
Proof.
  exact (checkSubscription_paid_not_gated
           (Scenario.sandbox_env Scenario.t0 (Ok (Some "SUCCESS")))
           (Scenario.paid "u1" "basic" (Scenario.t0 + Scenario.day) 50 75)
           _ eq_refl eq_refl).
Defined.



(** ** Reading the subscription *)

Lemma ceil_div_bounds (a b : Z) :
  0 < b ->
  (Js.ceil_div a b - 1) * b < a <= Js.ceil_div a b * b.
Proof.
  intro Hb. unfold Js.ceil_div.
  pose proof (Z.div_mod (- a) b ltac:(lia)) as Hdm.
  pose proof (Z.mod_pos_bound (- a) b Hb) as Hm.
  nia.
Qed.

(** X8. GET /subscription is read-only when the endDate is absent or not
    before now: the world is unchanged.  With an endDate at or after now
    the answer reports the stored status and usageLimit and a
    daysRemaining [n] that is the number of days left rounded up:
    [(n - 1)] days are less than the time left, which is at most [n]
    days. *)
Theorem get_subscription_current :
  forall (env : Env.t) (w : world) (uid : string) (u : User.t),
    Scenario.user_of uid w = Some u ->
    past env (Subscription.endDate (User.subscription u)) = false ->
    let (r, w') := PaymentRoutes.get_subscription env (Decoded uid) w in
    w' = w /\ code r = 200 /\
    forall d,
      Subscription.endDate (User.subscription u) = Some d ->
      exists n,
        (n - 1) * 86400000 < d - Env.now env <= n * 86400000 /\
        r = res_json
              (JObj [("subscription",
                      JObj [("status", jstr (Subscription.status (User.subscription u)));
                            ("planId", jstr (Subscription.planId (User.subscription u)));
                            ("startDate", jdate (Subscription.startDate (User.subscription u)));
                            ("endDate", JDate d);
                            ("isActive",
                             JBool (negb (Js.is_lit (Subscription.status (User.subscription u)) "free")));
                            ("daysRemaining", JNum n)]);
                     ("usageLimit", JNum (User.usageLimit u));
                     ("usageCount", JNum (User.usageCount u));
                     ("usagePercentage",
                      JPercent (User.usageCount u) (User.usageLimit u))]).
Proof.
  intros env w uid u Hu Hpast. unfold Scenario.user_of in Hu.
  unfold PaymentRoutes.get_subscription. monad. rewrite Hu. monad.
  rewrite (find_has_id _ _ _ Hu), Hu, Hpast.
  repeat split. intros d Hd. rewrite Hd.
  exists (Js.ceil_div (d - Env.now env) 86400000). split.
  - apply ceil_div_bounds. lia.
  - reflexivity.
Qed.

Lemma get_subscription_current_witness :
  let env := Scenario.sandbox_env Scenario.t0 (Ok (Some "SUCCESS")) in
  let u := Scenario.paid "u1" "basic" (Scenario.t0 + 36 * 3600000) 50 3 in
  let (r, w') :=
    PaymentRoutes.get_subscription env (Decoded "u1") (Scenario.world_of [u]) in
  w' = Scenario.world_of [u] /\ code r = 200.
Proof.
  pose proof (get_subscription_current
                (Scenario.sandbox_env Scenario.t0 (Ok (Some "SUCCESS")))
                (Scenario.world_of
                   [Scenario.paid "u1" "basic" (Scenario.t0 + 36 * 3600000) 50 3])
                "u1" _ eq_refl eq_refl) as H.
  cbv zeta.
  destruct (PaymentRoutes.get_subscription _ _ _) as [r w'].
  destruct H as (Hw & Hc & _). split; assumption.
Defined.

(** X9. The expiry downgrade of GET /subscription happens once: after a
    request that found the endDate in the past, a later request at any
    time changes nothing and reports status free with usageLimit 5 and
    the usageCount the user had, which the downgrade does not reset. *)
Theorem get_subscription_downgrade_once :
  forall (env1 env2 : Env.t) (w : world) (uid : string) (u : User.t) (d : Z),
    Scenario.user_of uid w = Some u ->
    Subscription.endDate (User.subscription u) = Some d ->
    d < Env.now env1 ->
    let w1 := snd (PaymentRoutes.get_subscription env1 (Decoded uid) w) in
    let (r2, w2) := PaymentRoutes.get_subscription env2 (Decoded uid) w1 in
    w2 = w1 /\
    r2 = res_json
           (JObj [("subscription",
                   JObj [("status", JStr "free"); ("planId", JStr "free");
                         ("startDate", JNull); ("endDate", JNull);
                         ("isActive", JBool false);
                         ("daysRemaining", JNull)]);
                  ("usageLimit", JNum 5);
                  ("usageCount", JNum (User.usageCount u));
                  ("usagePercentage", JPercent (User.usageCount u) 5)]).
Proof.
  intros env1 env2 w uid u d Hu Hend Hlt w1.
  assert (Hu1 : Scenario.user_of uid w1
                = Some (PaymentRoutes.revert_to_free
                          (Subscription.customerId (User.subscription u)) u)).
  { unfold w1, Scenario.user_of in *.
    unfold PaymentRoutes.get_subscription. monad. rewrite Hu. monad.
    rewrite (find_has_id _ _ _ Hu), Hu, Hend.
    unfold past. apply Z.ltb_lt in Hlt. rewrite Hlt. cbv beta iota.
    cbn [snd users]. rewrite (find_has_id _ _ _ Hu).
    rewrite find_update_first by reflexivity. now rewrite Hu. }
  clearbody w1. unfold Scenario.user_of in Hu1.
  unfold PaymentRoutes.get_subscription. monad. rewrite Hu1. monad.
  cbn [User._id PaymentRoutes.revert_to_free].
  rewrite (find_has_id _ _ _ Hu), Hu1. cbn. split; reflexivity.
Qed.

Lemma get_subscription_downgrade_once_witness :
  let env := Scenario.sandbox_env Scenario.t0 (Ok (Some "SUCCESS")) in
  let u := Scenario.paid "u1" "premium" (Scenario.t0 - Scenario.day) 200 7 in
  let w1 := snd (PaymentRoutes.get_subscription env (Decoded "u1")
                   (Scenario.world_of [u])) in
  let (r2, w2) := PaymentRoutes.get_subscription env (Decoded "u1") w1 in
  w2 = w1 /\
  r2 = res_json
         (JObj [("subscription",
                 JObj [("status", JStr "free"); ("planId", JStr "free");
                       ("startDate", JNull); ("endDate", JNull);
                       ("isActive", JBool false);
                       ("daysRemaining", JNull)]);
                ("usageLimit", JNum 5);
                ("usageCount", JNum (User.usageCount u));
                ("usagePercentage", JPercent (User.usageCount u) 5)]).
Proof.
  apply (get_subscription_downgrade_once
           (Scenario.sandbox_env Scenario.t0 (Ok (Some "SUCCESS")))
           (Scenario.sandbox_env Scenario.t0 (Ok (Some "SUCCESS")))
           (Scenario.world_of
              [Scenario.paid "u1" "premium" (Scenario.t0 - Scenario.day) 200 7])
           "u1"
           (Scenario.paid "u1" "premium" (Scenario.t0 - Scenario.day) 200 7)
           (Scenario.t0 - Scenario.day)).
  - reflexivity.
  - reflexivity.
  - vm_compute. reflexivity.
Defined.

(** ** What a request can do to the accounts *)

(** Case analysis on whatever a handler branches on. *)
Ltac break :=
  repeat (cbv beta iota;
          match goal with
          | |- context [match ?x with _ => _ end] =>
              lazymatch x with
              | context [match _ with _ => _ end] => fail
              | _ => destruct x eqn:?
              end
          end).

Ltac unfold_routes :=
  unfold Server.serve, PaymentRoutes.create_order, PaymentRoutes.capture_order,
    PaymentRoutes.get_subscription, PaymentRoutes.webhook,
    PaymentRoutes.handleCompletedPayment, PaymentRoutes.handlePaymentCompleted,
    PaymentRoutes.handlePaymentDeniedOrRefunded,
    ContentRoutes.generate, ContentRoutes.generate_handler,
    ContentRoutes.test_gemini, ContentRoutes.get_content,
    ContentRoutes.delete_content, ContentRoutes.save,
    PaypalApi.createOrder, PaypalApi.captureOrder,
    PaypalApi.verifyWebhookSignature, checkSubscription.

Lemma routes_users (env : Env.t) (req : Server.request) (w : world) :
  (forall h e, req <> Server.WebhookReq h e) ->
  users (snd (Server.serve env req w)) = users w \/
  exists id f,
    Server.account_update env f /\
    users (snd (Server.serve env req w))
    = Mongo.update_first (Mongo.has_id id) f (users w).
Proof.
  intro Hreq. destruct req; try (now left);
    try (exfalso; eapply Hreq; reflexivity);
    unfold_routes; monad; break; cbn [snd users];
      try (now left);
      right; do 2 eexists; (split; [|reflexivity]); constructor.
Qed.

Lemma webhook_users (env : Env.t) (h : PaypalApi.headers) (event : Event.t)
    (w : world) :
  contents (snd (PaymentRoutes.webhook env h event w)) = contents w /\
  (users (snd (PaymentRoutes.webhook env h event w)) = users w \/
   exists oid u f,
     Event.order_id event = Value oid /\
     find (PaymentRoutes.by_subscription_orderId oid) (users w) = Some u /\
     users (snd (PaymentRoutes.webhook env h event w))
     = Mongo.update_first (Mongo.has_id (User._id u)) f (users w) /\
     ((exists planId payerId,
         f = PaymentRoutes.webhook_completed_update env planId payerId oid) \/
      f = PaymentRoutes.revert_to_free
            (Subscription.customerId (User.subscription u)))).
Proof.
  unfold_routes; monad; break; cbn [snd users contents];
    (split; [reflexivity|]); try (now left);
    right; do 3 eexists;
    (split; [reflexivity|split; [eassumption|split; [reflexivity|]]]);
    first [right; reflexivity | left; do 2 eexists; reflexivity].
Qed.

Lemma map_update_first {B : Type} (g : User.t -> B) (p : User.t -> bool)
    (f : User.t -> User.t) (l : list User.t) :
  (forall u, g (f u) = g u) ->
  map g (Mongo.update_first p f l) = map g l.
Proof.
  intro Hg. induction l as [|u rest IH]; simpl; [reflexivity|].
  destruct (p u); simpl; [now rewrite Hg|now rewrite IH].
Qed.

Lemma Forall_update_first (P : User.t -> Prop) (p : User.t -> bool)
    (f : User.t -> User.t) (l : list User.t) :
  (forall u, P u -> P (f u)) ->
  Forall P l -> Forall P (Mongo.update_first p f l).
Proof.
  intros Hf H. induction H as [|u rest Hu Hrest IH]; simpl; [constructor|].
  destruct (p u); constructor; auto.
Qed.

Ltac by_routes env w :=
  match goal with
  | |- context [Server.serve env ?r w] =>
      let Hr := fresh in
      assert (Hr : forall h e, r <> Server.WebhookReq h e) by discriminate;
      destruct (routes_users env r w Hr) as [E|(account & f & Hf & E)]
  end.

Lemma serve_ids (env : Env.t) (req : Server.request) (w : world) :
  map User._id (users (snd (Server.serve env req w))) = map User._id (users w).
Proof.
  destruct req as [|? ?|? ?|h event|?|? ? ?|? ? ? ?|? ?|? ?];
    try (by_routes env w; rewrite E; [reflexivity|];
         apply map_update_first; destruct Hf; reflexivity).
  cbn [Server.serve].
  destruct (webhook_users env h event w) as [_ [E|(oid & u & f & _ & _ & E & Hf)]];
    rewrite E; [reflexivity|].
  apply map_update_first. destruct Hf as [(planId & payerId & ->)| ->];
    reflexivity.
Qed.

(** X10. No request to the payment and content routes creates, removes
    or reorders accounts: after any history of requests the list of user
    ids in the store is the one before. *)
Theorem accounts_preserved :
  forall (history : list (Env.t * Server.request)) (w : world),
    map User._id (users (Server.serve_all history w)) = map User._id (users w).
Proof.
  induction history as [|[env req] rest IH]; intro w; simpl; [reflexivity|].
  now rewrite IH, serve_ids.
Qed.

(** X11. A webhook delivery, verified or not and whatever its event,
    never writes the payment sub-document of any account (a pending
    order id and plan id stay as they were) and never touches the stored
    contents. *)
Theorem webhook_keeps_pending_payment :
  forall (env : Env.t) (h : PaypalApi.headers) (event : Event.t) (w : world),
    let (r, w') := PaymentRoutes.webhook env h event w in
    map User.payment (users w') = map User.payment (users w) /\
    contents w' = contents w.
Proof.
  intros env h event w.
  destruct (webhook_users env h event w) as [Hc Hu].
  destruct (PaymentRoutes.webhook env h event w) as [r w']. cbn [snd] in *.
  split; [|exact Hc].
  destruct Hu as [E|(oid & u & f & _ & _ & E & Hf)]; rewrite E; [reflexivity|].
  apply map_update_first. destruct Hf as [(planId & payerId & ->)| ->];
    reflexivity.
Qed.

Lemma serve_unlinked (env : Env.t) (req : Server.request) (w : world) :
  Server.unlinked w -> Server.unlinked (snd (Server.serve env req w)).
Proof.
  unfold Server.unlinked. intro H.
  destruct req as [|? ?|? ?|h event|?|? ? ?|? ? ? ?|? ?|? ?];
    try (by_routes env w; rewrite E; [exact H|];
         apply Forall_update_first; [|exact H];
         destruct Hf; intros x Hx; cbn; first [exact Hx | reflexivity]).
  cbn [Server.serve].
  destruct (webhook_users env h event w)
    as [_ [E|(oid & u & f & _ & Hfind & E & Hf)]]; rewrite E; [exact H|].
  apply Forall_update_first; [|exact H].
  apply find_some in Hfind as [Hin Hmatch].
  rewrite Forall_forall in H. apply H in Hin.
  unfold PaymentRoutes.by_subscription_orderId in Hmatch.
  rewrite Hin in Hmatch. apply strict_eq_spec in Hmatch. subst oid.
  destruct Hf as [(planId & payerId & ->)| ->]; intros x _; reflexivity.
Qed.

Lemma serve_all_unlinked (history : list (Env.t * Server.request)) (w : world) :
  Server.unlinked w -> Server.unlinked (Server.serve_all history w).
Proof.
  revert w. induction history as [|[env req] rest IH]; intros w H; simpl.
  - exact H.
  - apply IH, serve_unlinked, H.
Qed.

(** X12. Starting from accounts none of which carries an order id under
    subscription.orderId (as the accounts created at login), no history
    of requests to the payment and content routes ever stores one, and
    therefore a webhook delivery that names an order id, whatever its
    event type and verification, changes no user document. *)
Theorem webhook_never_finds_order :
  forall (history : list (Env.t * Server.request)) (w : world)
         (env : Env.t) (h : PaypalApi.headers) (event : Event.t)
         (oid : string),
    Server.unlinked w ->
    Event.order_id event = Value (Some oid) ->
    Server.unlinked (Server.serve_all history w) /\
    users (snd (PaymentRoutes.webhook env h event (Server.serve_all history w)))
    = users (Server.serve_all history w).
Proof.
  intros history w env h event oid Hw Hev.
  pose proof (serve_all_unlinked history w Hw) as Hun. split; [exact Hun|].
  destruct (webhook_users env h event (Server.serve_all history w))
    as [_ [E|(o & u & f & Ho & Hfind & _)]]; [exact E|].
  exfalso. rewrite Hev in Ho. injection Ho as <-.
  apply find_some in Hfind as [Hin Hmatch].
  unfold Server.unlinked in Hun. rewrite Forall_forall in Hun.
  apply Hun in Hin. unfold PaymentRoutes.by_subscription_orderId in Hmatch.
  rewrite Hin in Hmatch. discriminate.
Qed.

Lemma webhook_never_finds_order_witness :
  let env := Scenario.sandbox_env Scenario.t0 (Ok (Some "SUCCESS")) in
  let oid := "TEST-ORDER-" ++ Js.decimal Scenario.t0 in
  let history :=
    [(env, Server.CreateOrderReq (Decoded "u1") (Some "premium"));
     (env, Server.CaptureOrderReq (Decoded "u1") (Some oid))] in
  let w := Scenario.world_of [Scenario.fresh "u1"] in
  Server.unlinked (Server.serve_all history w) /\
  users (snd (PaymentRoutes.webhook env [] (Scenario.refunded_event oid)
                (Server.serve_all history w)))
  = users (Server.serve_all history w).
Proof.
  apply (webhook_never_finds_order
           [(Scenario.sandbox_env Scenario.t0 (Ok (Some "SUCCESS")),
             Server.CreateOrderReq (Decoded "u1") (Some "premium"));
            (Scenario.sandbox_env Scenario.t0 (Ok (Some "SUCCESS")),
             Server.CaptureOrderReq (Decoded "u1")
               (Some ("TEST-ORDER-" ++ Js.decimal Scenario.t0)))]
           (Scenario.world_of [Scenario.fresh "u1"])
           (Scenario.sandbox_env Scenario.t0 (Ok (Some "SUCCESS")))
           [] (Scenario.refunded_event ("TEST-ORDER-" ++ Js.decimal Scenario.t0))
           ("TEST-ORDER-" ++ Js.decimal Scenario.t0)).
  - repeat constructor.
  - reflexivity.
Defined.

(** ** Webhooks that do find an account *)

Lemma webhook_verified (env : Env.t) (h : PaypalApi.headers) (event : Event.t)
    (w : world) :
  Env.execute_verify env
    (PaypalApi.verifyBody (Env.PAYPAL_WEBHOOK_ID env) event h)
  = Ok (Some "SUCCESS") ->
  PaypalApi.verifyWebhookSignature env (Env.PAYPAL_WEBHOOK_ID env) event h w
  = (Ok true,
     mkWorld (users w) (contents w)
       (gateway w ++ [VerifyWebhook (Env.PAYPAL_WEBHOOK_ID env)])).
Proof.
  intro H. now rewrite verifyWebhookSignature_run, H.
Qed.

(** X13. A verified PAYMENT.CAPTURE.DENIED or PAYMENT.CAPTURE.REFUNDED
    webhook whose order id is found under subscription.orderId of an
    account is answered 200 and puts that account back on the free plan:
    status and planId free, usageLimit 5, no order id and no dates,
    customerId kept, and usageCount and the payment sub-document left as
    they were. *)
Theorem webhook_refund_reverts_linked_account :
  forall (env : Env.t) (h : PaypalApi.headers) (event : Event.t) (w : world)
         (oid : option string) (u : User.t),
    Env.execute_verify env
      (PaypalApi.verifyBody (Env.PAYPAL_WEBHOOK_ID env) event h)
    = Ok (Some "SUCCESS") ->
    Event.event_type event = Some "PAYMENT.CAPTURE.DENIED" \/
    Event.event_type event = Some "PAYMENT.CAPTURE.REFUNDED" ->
    Event.order_id event = Value oid ->
    find (PaymentRoutes.by_subscription_orderId oid) (users w) = Some u ->
    Scenario.user_of (User._id u) w = Some u ->
    let (r, w') := PaymentRoutes.webhook env h event w in
    r = PaymentRoutes.msg 200 "Webhook received" /\
    Scenario.user_of (User._id u) w'
    = Some (User.mk (User._id u)
              (Subscription.mk (Some "free") (Some "free")
                 (Subscription.customerId (User.subscription u))
                 None None None None None)
              (User.payment u) 5 (User.usageCount u)).
Proof.
  intros env h event w oid u Hv Hty Hoid Hfind Hu.
  unfold Scenario.user_of in *.
  unfold PaymentRoutes.webhook. monad.
  rewrite (webhook_verified env h event w Hv). cbn [negb]. cbv beta iota.
  assert (Hdisp :
    Js.is_lit (Event.event_type event) "PAYMENT.CAPTURE.COMPLETED" = false /\
    (Js.is_lit (Event.event_type event) "PAYMENT.CAPTURE.DENIED"
     || Js.is_lit (Event.event_type event) "PAYMENT.CAPTURE.REFUNDED")%bool
    = true).
  { destruct Hty as [-> | ->]; split; reflexivity. }
  destruct Hdisp as [-> ->].
  unfold PaymentRoutes.handlePaymentDeniedOrRefunded. monad.
  rewrite Hoid. cbv beta iota. cbn [users]. rewrite Hfind. cbv beta iota.
  cbn [users]. split; [reflexivity|].
  rewrite find_update_first by reflexivity. now rewrite Hu.
Qed.

Lemma webhook_refund_reverts_linked_account_witness :
  let env := Scenario.sandbox_env Scenario.t0 (Ok (Some "SUCCESS")) in
  let u := User.mk "u1"
             (Subscription.mk (Some "premium") (Some "premium")
                (Some "PAYER-1") (Some "O1") None
                (Some Scenario.t0) (Some (Scenario.t0 + 30 * Scenario.day))
                None)
             (Payment.mk None None None None) 9999 12 in
  let (r, w') :=
    PaymentRoutes.webhook env [] (Scenario.refunded_event "O1")
      (Scenario.world_of [u]) in
  r = PaymentRoutes.msg 200 "Webhook received" /\
  Scenario.user_of "u1" w'
  = Some (User.mk "u1"
            (Subscription.mk (Some "free") (Some "free") (Some "PAYER-1")
               None None None None None)
            (Payment.mk None None None None) 5 12).
Proof.
  apply (webhook_refund_reverts_linked_account
           (Scenario.sandbox_env Scenario.t0 (Ok (Some "SUCCESS"))) []
           (Scenario.refunded_event "O1")
           (Scenario.world_of
              [User.mk "u1"
                 (Subscription.mk (Some "premium") (Some "premium")
                    (Some "PAYER-1") (Some "O1") None
                    (Some Scenario.t0) (Some (Scenario.t0 + 30 * Scenario.day))
                    None)
                 (Payment.mk None None None None) 9999 12])
           (Some "O1")
           (User.mk "u1"
              (Subscription.mk (Some "premium") (Some "premium")
                 (Some "PAYER-1") (Some "O1") None
                 (Some Scenario.t0) (Some (Scenario.t0 + 30 * Scenario.day))
                 None)
              (Payment.mk None None None None) 9999 12)).
  - reflexivity.
  - right. reflexivity.
  - reflexivity.
  - reflexivity.
  - reflexivity.
Defined.

(** X14. A verified PAYMENT.CAPTURE.COMPLETED webhook for an account
    that is found and whose status is no longer free is answered 200 and
    changes no user document: a payment that was already applied is not
    applied again. *)
Theorem webhook_completed_already_applied :
  forall (env : Env.t) (h : PaypalApi.headers) (event : Event.t) (w : world)
         (oid payerId : option string) (u : User.t),
    Env.execute_verify env
      (PaypalApi.verifyBody (Env.PAYPAL_WEBHOOK_ID env) event h)
    = Ok (Some "SUCCESS") ->
    Event.event_type event = Some "PAYMENT.CAPTURE.COMPLETED" ->
    Event.order_id event = Value oid ->
    Event.payer_id event = Value payerId ->
    find (PaymentRoutes.by_subscription_orderId oid) (users w) = Some u ->
    Js.is_lit (Subscription.status (User.subscription u)) "free" = false ->
    let (r, w') := PaymentRoutes.webhook env h event w in
    r = PaymentRoutes.msg 200 "Webhook received" /\
    users w' = users w /\ contents w' = contents w.
Proof.
  intros env h event w oid payerId u Hv Hty Hoid Hpayer Hfind Hstatus.
  unfold PaymentRoutes.webhook. monad.
  rewrite (webhook_verified env h event w Hv). cbn [negb]. cbv beta iota.
  rewrite Hty.
  change (Js.is_lit (Some "PAYMENT.CAPTURE.COMPLETED")
            "PAYMENT.CAPTURE.COMPLETED") with true. cbv beta iota.
  unfold PaymentRoutes.handlePaymentCompleted. monad.
  rewrite Hoid, Hpayer. cbv beta iota. cbn [users]. rewrite Hfind.
  cbv beta iota. rewrite Hstatus. repeat split.
Qed.

Lemma webhook_completed_already_applied_witness :
  let env := Scenario.sandbox_env Scenario.t0 (Ok (Some "SUCCESS")) in
  let u := User.mk "u1"
             (Subscription.mk (Some "premium") (Some "premium")
                (Some "PAYER-1") (Some "O1") None
                (Some Scenario.t0) (Some (Scenario.t0 + 30 * Scenario.day))
                None)
             (Payment.mk None None None None) 9999 12 in
  let (r, w') :=
    PaymentRoutes.webhook env [] (Scenario.completed_event "O1")
      (Scenario.world_of [u]) in
  r = PaymentRoutes.msg 200 "Webhook received" /\
  users w' = users (Scenario.world_of [u]) /\
  contents w' = contents (Scenario.world_of [u]).
Proof.
  apply (webhook_completed_already_applied
           (Scenario.sandbox_env Scenario.t0 (Ok (Some "SUCCESS"))) []
           (Scenario.completed_event "O1")
           (Scenario.world_of
              [User.mk "u1"
                 (Subscription.mk (Some "premium") (Some "premium")
                    (Some "PAYER-1") (Some "O1") None
                    (Some Scenario.t0) (Some (Scenario.t0 + 30 * Scenario.day))
                    None)
                 (Payment.mk None None None None) 9999 12])
           (Some "O1") (Some "PAYER-1")
           (User.mk "u1"
              (Subscription.mk (Some "premium") (Some "premium")
                 (Some "PAYER-1") (Some "O1") None
                 (Some Scenario.t0) (Some (Scenario.t0 + 30 * Scenario.day))
                 None)
              (Payment.mk None None None None) 9999 12)).
  - reflexivity.
  - reflexivity.
  - reflexivity.
  - reflexivity.
  - reflexivity.
  - reflexivity.
Defined.

(** X15. A verified webhook whose event type is none of
    PAYMENT.CAPTURE.COMPLETED, PAYMENT.CAPTURE.DENIED and
    PAYMENT.CAPTURE.REFUNDED is answered 200 "Webhook received" and
    changes no user document; one whose event is among the three but has
    no [resource.supplementary_data.related_ids] to read the order id
    from is answered 500, also without changing any user document. *)
Theorem webhook_verified_without_effect :
  forall (env : Env.t) (h : PaypalApi.headers) (event : Event.t) (w : world),
    Env.execute_verify env
      (PaypalApi.verifyBody (Env.PAYPAL_WEBHOOK_ID env) event h)
    = Ok (Some "SUCCESS") ->
    let handled :=
      Js.one_of ["PAYMENT.CAPTURE.COMPLETED"; "PAYMENT.CAPTURE.DENIED";
                 "PAYMENT.CAPTURE.REFUNDED"] (Event.event_type event) in
    let (r, w') := PaymentRoutes.webhook env h event w in
    (handled = false ->
     r = PaymentRoutes.msg 200 "Webhook received" /\ users w' = users w) /\
    (handled = true -> Event.order_id event = Broken ->
     r = PaymentRoutes.msg 500 "Server Error" /\ users w' = users w).
Proof.
  intros env h event w Hv handled. subst handled.
  unfold PaymentRoutes.webhook. monad.
  rewrite (webhook_verified env h event w Hv). cbn [negb]. cbv beta iota.
  cbn [Js.one_of existsb].
  destruct (Js.is_lit (Event.event_type event) "PAYMENT.CAPTURE.COMPLETED");
    [|destruct (Js.is_lit (Event.event_type event) "PAYMENT.CAPTURE.DENIED");
      [|destruct (Js.is_lit (Event.event_type event) "PAYMENT.CAPTURE.REFUNDED")]];
    cbn [orb]; cbv beta iota.
  4:{ split; [split; reflexivity|discriminate]. }
  all: destruct (Event.order_id event) as [|oid] eqn:Ho.
  all: try (unfold PaymentRoutes.handlePaymentCompleted,
              PaymentRoutes.handlePaymentDeniedOrRefunded; monad;
            rewrite Ho; cbv beta iota;
            split; [discriminate|intros _ _; split; reflexivity]).
  all: match goal with
       | |- let (_, _) := ?e in _ => destruct e
       end; split; discriminate.
Qed.

Lemma webhook_verified_without_effect_witness :
  let env := Scenario.sandbox_env Scenario.t0 (Ok (Some "SUCCESS")) in
  let event := Event.mk (Some "CHECKOUT.ORDER.APPROVED") Broken Broken in
  let w := Scenario.world_of [Scenario.fresh "u1"] in
  let (r, w') := PaymentRoutes.webhook env [] event w in
  r = PaymentRoutes.msg 200 "Webhook received" /\ users w' = users w.
Proof.
  pose proof (webhook_verified_without_effect
                (Scenario.sandbox_env Scenario.t0 (Ok (Some "SUCCESS"))) []
                (Event.mk (Some "CHECKOUT.ORDER.APPROVED") Broken Broken)
                (Scenario.world_of [Scenario.fresh "u1"]) eq_refl) as H.
  cbv zeta in *.
  destruct (PaymentRoutes.webhook _ _ _ _) as [r w'].
  exact (proj1 H eq_refl).
Defined.

(** ** Content generation and stored contents *)

(** X16. A request to /generate that passed the guard with a content type
    outside blog, article, social, seo, email, other is answered with an
    error code and leaves the world unchanged: the text may have been
    generated, but nothing is saved and usageCount is not incremented. *)
Theorem generate_unknown_content_type :
  forall (env : Env.t) (u : User.t) (p ct : string) (w : world),
    ct <> "" ->
    Js.one_of Content.contentTypes (Some ct) = false ->
    exists r,
      ContentRoutes.generate_handler env u (Some p) (Some ct) w = (Ok r, w) /\
      code r <> 200.
Proof.
  intros env u p ct w Hct Henum.
  apply String.eqb_neq in Hct.
  unfold ContentRoutes.generate_handler. monad.
  destruct (negb (Js.truthy (Some p))).
  { eexists. split; [reflexivity|discriminate]. }
  destruct (negb (Env.readyState env =? 1)).
  { eexists. split; [reflexivity|discriminate]. }
  cbn [Js.or_else]. rewrite Hct.
  destruct (Env.generateContent env p ct None) as [text|e].
  2:{ eexists. split; [reflexivity|apply api_error_code]. }
  unfold ContentRoutes.save, ContentRoutes.validation_error.
  cbn [Content.generatedContent Content.contentType].
  rewrite Henum. cbn [negb].
  destruct (String.eqb text ""); monad;
    (eexists; split; [reflexivity|apply api_error_code]).
Qed.

Lemma generate_unknown_content_type_witness :
  exists r,
    ContentRoutes.generate_handler
      (Scenario.sandbox_env Scenario.t0 (Ok (Some "SUCCESS")))
      (Scenario.fresh "u1") (Some "a haiku") (Some "poem")
      (Scenario.world_of [Scenario.fresh "u1"])
    = (Ok r, Scenario.world_of [Scenario.fresh "u1"]) /\
    code r <> 200.
Proof.
  apply (generate_unknown_content_type
           (Scenario.sandbox_env Scenario.t0 (Ok (Some "SUCCESS")))
           (Scenario.fresh "u1") "a haiku" "poem").
  - discriminate.
  - reflexivity.
Defined.

(** X17. Stored contents are private to their owner: when the content
    with the requested id belongs to another user, both GET /:id and
    DELETE /:id are answered 401 "Not authorized" (404 when the id does
    not cast), the content is not in the answer and the world is
    unchanged. *)
Theorem content_of_another_user :
  forall (env : Env.t) (w : world) (uid id : string) (u : User.t)
         (c : Content.t),
    Scenario.user_of uid w = Some u ->
    find (Mongo.content_has_id id) (contents w) = Some c ->
    Content.user c <> uid ->
    let answer := if Env.validObjectId env id
                  then ContentRoutes.not_authorized
                  else ContentRoutes.not_found in
    ContentRoutes.get_content env (Decoded uid) id w = (answer, w) /\
    ContentRoutes.delete_content env (Decoded uid) id w = (answer, w).
Proof.
  intros env w uid id u c Hu Hc Hother answer. subst answer.
  unfold Scenario.user_of in Hu.
  rewrite <- (find_has_id _ _ _ Hu) in Hother.
  apply String.eqb_neq in Hother.
  unfold ContentRoutes.get_content, ContentRoutes.delete_content. monad.
  rewrite Hu. monad.
  destruct (Env.validObjectId env id); cbn [negb]; cbv beta iota.
  - rewrite Hc, Hother. split; reflexivity.
  - split; reflexivity.
Qed.

Lemma content_of_another_user_witness :
  let env := Scenario.sandbox_env Scenario.t0 (Ok (Some "SUCCESS")) in
  let w := mkWorld [Scenario.fresh "u1"; Scenario.fresh "u2"]
             [Content.mk "c7" "u2" "p" "text" "blog" Scenario.t0] [] in
  ContentRoutes.get_content env (Decoded "u1") "c7" w
  = (ContentRoutes.not_authorized, w) /\
  ContentRoutes.delete_content env (Decoded "u1") "c7" w
  = (ContentRoutes.not_authorized, w).
Proof.
  apply (content_of_another_user
           (Scenario.sandbox_env Scenario.t0 (Ok (Some "SUCCESS")))
           (mkWorld [Scenario.fresh "u1"; Scenario.fresh "u2"]
              [Content.mk "c7" "u2" "p" "text" "blog" Scenario.t0] [])
           "u1" "c7" (Scenario.fresh "u1")
           (Content.mk "c7" "u2" "p" "text" "blog" Scenario.t0)).
  - reflexivity.
  - reflexivity.
  - discriminate.
Defined.

Lemma find_remove_first (id : string) (l : list Content.t) :
  NoDup (map Content._id l) ->
  find (Mongo.content_has_id id)
    (Mongo.remove_first (Mongo.content_has_id id) l) = None.
Proof.
  induction l as [|c rest IH]; simpl; intro Hnd; [reflexivity|].
  inversion Hnd as [|x xs Hnotin Hrest]; subst.
  destruct (Mongo.content_has_id id c) eqn:E.
  - apply String.eqb_eq in E.
    destruct (find (Mongo.content_has_id id) rest) as [c'|] eqn:F;
      [|reflexivity].
    apply find_some in F as [Hin Hid]. apply String.eqb_eq in Hid.
    exfalso. apply Hnotin. rewrite E, <- Hid. now apply in_map.
  - simpl. rewrite E. now apply IH.
Qed.

(** X18. The owner of a content can delete it: DELETE /:id is answered
    200 "Content removed", the user documents are unchanged, and, ids of
    stored contents being distinct, a later GET of the same id by the
    same user is answered 404 "Content not found". *)
Theorem delete_then_get :
  forall (env env' : Env.t) (w : world) (uid id : string) (u : User.t)
         (c : Content.t),
    Scenario.user_of uid w = Some u ->
    Env.validObjectId env id = true ->
    find (Mongo.content_has_id id) (contents w) = Some c ->
    Content.user c = uid ->
    NoDup (map Content._id (contents w)) ->
    let (r, w') := ContentRoutes.delete_content env (Decoded uid) id w in
    r = res_json (JObj [("msg", JStr "Content removed")]) /\
    users w' = users w /\
    ContentRoutes.get_content env' (Decoded uid) id w'
    = (ContentRoutes.not_found, w').
Proof.
  intros env env' w uid id u c Hu Hvalid Hc Hown Hnd.
  unfold Scenario.user_of in Hu.
  pose proof (find_has_id _ _ _ Hu) as Hid.
  assert (Hcid : Content._id c = id).
  { apply find_some in Hc as [_ Hc]. now apply String.eqb_eq in Hc. }
  unfold ContentRoutes.delete_content. monad. rewrite Hu. monad.
  rewrite Hvalid. cbn [negb]. cbv beta iota. rewrite Hc.
  rewrite Hown, Hid, String.eqb_refl. cbn [negb]. cbv beta iota.
  repeat split.
  unfold ContentRoutes.get_content. monad. cbn [users contents].
  rewrite Hu. monad.
  destruct (Env.validObjectId env' id); cbn [negb]; cbv beta iota;
    [|reflexivity].
  cbn [contents]. rewrite Hcid, (find_remove_first id _ Hnd). reflexivity.
Qed.

Lemma delete_then_get_witness :
  let env := Scenario.sandbox_env Scenario.t0 (Ok (Some "SUCCESS")) in
  let w := mkWorld [Scenario.fresh "u1"]
             [Content.mk "c7" "u1" "p" "text" "blog" Scenario.t0;
              Content.mk "c8" "u1" "q" "more" "seo" Scenario.t0] [] in
  let (r, w') := ContentRoutes.delete_content env (Decoded "u1") "c7" w in
  r = res_json (JObj [("msg", JStr "Content removed")]) /\
  users w' = users w /\
  ContentRoutes.get_content env (Decoded "u1") "c7" w'
  = (ContentRoutes.not_found, w').
Proof.
  apply (delete_then_get
           (Scenario.sandbox_env Scenario.t0 (Ok (Some "SUCCESS")))
           (Scenario.sandbox_env Scenario.t0 (Ok (Some "SUCCESS")))
           (mkWorld [Scenario.fresh "u1"]
              [Content.mk "c7" "u1" "p" "text" "blog" Scenario.t0;
               Content.mk "c8" "u1" "q" "more" "seo" Scenario.t0] [])
           "u1" "c7" (Scenario.fresh "u1")
           (Content.mk "c7" "u1" "p" "text" "blog" Scenario.t0)).
  - reflexivity.
  - reflexivity.
  - reflexivity.
  - reflexivity.
  - repeat constructor; simpl; intuition discriminate.
Defined.

Lemma checkSubscription_respond_code (env : Env.t) (reqUser : option User.t)
    (w w' : world) (g : response) :
  checkSubscription env reqUser w = (Ok (Respond g), w') -> code g <> 200.
Proof.
  unfold checkSubscription. monad. break; intros [= <- _]; discriminate.
Qed.

Lemma find_app_fresh (p : Content.t -> bool) (l : list Content.t)
    (c : Content.t) :
  find p l = None -> p c = true -> find p (l ++ [c]) = Some c.
Proof.
  intros Hl Hc. induction l as [|x rest IH]; simpl in *.
  - now rewrite Hc.
  - destruct (p x); [discriminate|]. now apply IH.
Qed.

(** X19. What /generate answers with 200 can be read back: when the id
    given to the new content was not yet in use and casts to an ObjectId,
    a later GET /:id of that id by the same user returns the very body
    that /generate returned, and changes nothing. *)
Theorem generate_then_get :
  forall (env env' : Env.t) (w : world) (uid : string) (u : User.t)
         (prompt contentType : option string),
    Scenario.user_of uid w = Some u ->
    find (Mongo.content_has_id (Env.newObjectId env)) (contents w) = None ->
    Env.validObjectId env' (Env.newObjectId env) = true ->
    let (r, w') :=
      ContentRoutes.generate env (Decoded uid) prompt contentType w in
    code r = 200 ->
    ContentRoutes.get_content env' (Decoded uid) (Env.newObjectId env) w'
    = (r, w').
Proof.
  intros env env' w uid u prompt contentType Hu Hfresh Hvalid.
  unfold Scenario.user_of in Hu.
  pose proof (find_has_id _ _ _ Hu) as Hid. subst uid.
  unfold ContentRoutes.generate. monad. rewrite Hu. monad.
  destruct (checkSubscription env (Some u) w) as [[[g|[]]|e] wg] eqn:E.
  - intro Hc. exfalso.
    exact (checkSubscription_respond_code _ _ _ _ _ E Hc).
  - destruct (checkSubscription_cases env u w) as [E'|[[g E']|[g E']]];
      rewrite E in E'; try discriminate. injection E' as ->.
    destruct (generate_handler_run env u prompt contentType w)
      as (r & w' & Hrun & Hout).
    rewrite Hrun.
    destruct Hout as [[Hcode _]|(p & text & _ & _ & _ & Hout)];
      [intro; contradiction|].
    cbv zeta in Hout. destruct Hout as [Hr Hw]. intros _. subst w'.
    unfold ContentRoutes.get_content. monad. cbn [users contents].
    rewrite find_update_first by reflexivity. rewrite Hu.
    cbn [option_map]. cbv beta iota.
    rewrite Hvalid. cbn [negb]. cbv beta iota. cbn [contents].
    rewrite (find_app_fresh _ _ _ Hfresh)
      by (unfold Mongo.content_has_id; cbn; apply String.eqb_refl).
    cbn [Content.user ContentRoutes.inc_usageCount User._id].
    rewrite String.eqb_refl. cbn [negb]. cbv beta iota. now rewrite Hr.
  - discriminate.
Qed.

Lemma generate_then_get_witness :
  let env := Scenario.sandbox_env Scenario.t0 (Ok (Some "SUCCESS")) in
  let w := Scenario.world_of [Scenario.fresh "u1"] in
  let (r, w') :=
    ContentRoutes.generate env (Decoded "u1") (Some "hello") (Some "blog") w in
  code r = 200 /\
  ContentRoutes.get_content env (Decoded "u1") (Env.newObjectId env) w'
  = (r, w').
Proof.
  pose proof (generate_then_get
                (Scenario.sandbox_env Scenario.t0 (Ok (Some "SUCCESS")))
                (Scenario.sandbox_env Scenario.t0 (Ok (Some "SUCCESS")))
                (Scenario.world_of [Scenario.fresh "u1"]) "u1"
                (Scenario.fresh "u1") (Some "hello") (Some "blog")
                eq_refl eq_refl eq_refl) as H.
  assert (Hc : code (fst (ContentRoutes.generate
                            (Scenario.sandbox_env Scenario.t0 (Ok (Some "SUCCESS")))
                            (Decoded "u1") (Some "hello") (Some "blog")
                            (Scenario.world_of [Scenario.fresh "u1"]))) = 200)
    by reflexivity.
  cbv zeta.
  destruct (ContentRoutes.generate _ _ _ _ _) as [r w'].
  cbn [fst] in Hc. split; [exact Hc|exact (H Hc)].
Defined.

(** ** Requests without a valid user *)

(** X20. A request whose token is missing, does not verify, or names a
    user that is not in the store is answered 401 by every protected
    route of the payment and content routers, whatever its body, and
    leaves the world unchanged. *)
Theorem unauthenticated_requests_rejected :
  forall (env : Env.t) (w : world) (tok : token),
    (tok = NoToken \/ (exists message, tok = BadToken message) \/
     (exists id, tok = Decoded id /\ Scenario.user_of id w = None)) ->
    forall (a b c : option string) (id : string),
      Forall (fun answer => code (fst answer) = 401 /\ snd answer = w)
        [ PaymentRoutes.create_order env tok a w;
          PaymentRoutes.capture_order env tok a w;
          PaymentRoutes.get_subscription env tok w;
          ContentRoutes.generate env tok a b w;
          ContentRoutes.test_gemini env tok a b c w;
          ContentRoutes.get_content env tok id w;
          ContentRoutes.delete_content env tok id w ].
Proof.
  intros env w tok Htok a b c id.
  unfold PaymentRoutes.create_order, PaymentRoutes.capture_order,
    PaymentRoutes.get_subscription, ContentRoutes.generate,
    ContentRoutes.test_gemini, ContentRoutes.get_content,
    ContentRoutes.delete_content.
  destruct Htok as [-> | [[message ->] | (uid & -> & Hnone)]]; monad;
    try (unfold Scenario.user_of in Hnone; rewrite Hnone);
    repeat constructor.
Qed.

Lemma unauthenticated_requests_rejected_witness :
  let env := Scenario.sandbox_env Scenario.t0 (Ok (Some "SUCCESS")) in
  let w := Scenario.world_of [Scenario.fresh "u1"] in
  Forall (fun answer => code (fst answer) = 401 /\ snd answer = w)
    [ PaymentRoutes.create_order env (Decoded "ghost") (Some "basic") w;
      PaymentRoutes.capture_order env (Decoded "ghost") (Some "basic") w;
      PaymentRoutes.get_subscription env (Decoded "ghost") w;
      ContentRoutes.generate env (Decoded "ghost") (Some "basic") None w;
      ContentRoutes.test_gemini env (Decoded "ghost") (Some "basic") None None w;
      ContentRoutes.get_content env (Decoded "ghost") "c1" w;
      ContentRoutes.delete_content env (Decoded "ghost") "c1" w ].
Proof.
  apply (unauthenticated_requests_rejected
           (Scenario.sandbox_env Scenario.t0 (Ok (Some "SUCCESS")))
           (Scenario.world_of [Scenario.fresh "u1"]) (Decoded "ghost")).
  right. right. exists "ghost". split; reflexivity.
Defined.

(** ** Retrying the database connection *)

Lemma retry_loop_connected (attempt : nat -> bool) (remaining : nat) :
  forall (k : nat) (delay : Z) (sleeps : list Z),
    (DbHelpers.connected
       (DbHelpers.retry_loop attempt remaining k delay sleeps) = true <->
     exists j, (j < remaining)%nat /\ attempt (k + j)%nat = true) /\
    (DbHelpers.attempts
       (DbHelpers.retry_loop attempt remaining k delay sleeps)
     <= k + remaining)%nat.
Proof.
  induction remaining as [|r IH]; intros k delay sleeps; simpl.
  - split; [|lia]. split; [discriminate|]. intros (j & Hj & _). lia.
  - destruct (attempt k) eqn:Ek; simpl.
    + split; [|lia]. split; [|reflexivity]. intros _. exists 0%nat.
      rewrite Nat.add_0_r. split; [lia|exact Ek].
    + destruct r as [|r'].
      * simpl. split; [|lia]. split; [discriminate|].
        intros (j & Hj & Hat). assert (j = 0)%nat by lia. subst j.
        rewrite Nat.add_0_r in Hat. congruence.
      * destruct (IH (S k) (delay * 2) (sleeps ++ [delay * 2])%list)
          as [Hc Ha].
        split; [|lia]. rewrite Hc. split.
        -- intros (j & Hj & Hat). exists (S j). split; [lia|].
           now replace (k + S j)%nat with (S k + j)%nat by lia.
        -- intros (j & Hj & Hat). destruct j as [|j'].
           ++ rewrite Nat.add_0_r in Hat. congruence.
           ++ exists j'. split; [lia|].
              now replace (S k + j')%nat with (k + S j')%nat by lia.
Qed.

(** X21. [retryConnection] returns true exactly when one of the first
    [maxRetries] calls of [connectFn] succeeds, and it never calls
    [connectFn] more than [maxRetries] times; with [maxRetries] zero or
    negative it returns false without calling it at all. *)
Theorem retryConnection_connected :
  forall (attempt : nat -> bool) (maxRetries initialDelay : Z),
    let run := DbHelpers.retryConnection attempt maxRetries initialDelay in
    (DbHelpers.connected run = true <->
     exists j, 0 <= Z.of_nat j < maxRetries /\ attempt j = true) /\
    Z.of_nat (DbHelpers.attempts run) <= Z.max 0 maxRetries /\
    (maxRetries <= 0 ->
     DbHelpers.connected run = false /\ DbHelpers.attempts run = 0%nat).
Proof.
  intros attempt maxRetries initialDelay run. subst run.
  unfold DbHelpers.retryConnection.
  destruct (retry_loop_connected attempt (Z.to_nat maxRetries) 0 initialDelay [])
    as [Hc Ha].
  split; [|split].
  - rewrite Hc. split; intros (j & Hj & Hat); exists j; (split; [lia|exact Hat]).
  - lia.
  - intro Hle. replace (Z.to_nat maxRetries) with 0%nat by lia.
    split; reflexivity.
Qed.

Lemma retry_loop_all_fail (attempt : nat -> bool) (remaining : nat) :
  forall (k : nat) (delay : Z) (sleeps : list Z),
    (forall j, attempt j = false) ->
    DbHelpers.retry_loop attempt (S remaining) k delay sleeps
    = DbHelpers.mkRun false (k + S remaining)
        (sleeps ++ map (fun i => delay * 2 ^ Z.of_nat (S i)) (seq 0 remaining)).
Proof.
  induction remaining as [|r IH]; intros k delay sleeps Hfail.
  - simpl. rewrite Hfail, app_nil_r. f_equal. lia.
  - change (DbHelpers.retry_loop attempt (S (S r)) k delay sleeps)
      with (if attempt k then DbHelpers.mkRun true (S k) sleeps
            else DbHelpers.retry_loop attempt (S r) (S k) (delay * 2)
                   (sleeps ++ [delay * 2])).
    rewrite Hfail, (IH _ _ _ Hfail). f_equal; [lia|].
    rewrite <- app_assoc. f_equal. cbn [seq map app]. f_equal.
    rewrite <- seq_shift, map_map. apply map_ext. intro i.
    rewrite (Nat2Z.inj_succ (S i)), Z.pow_succ_r by lia. lia.
Qed.

(** X22. When every call of [connectFn] fails, [retryConnection] with
    [maxRetries] at least 1 gives up after exactly [maxRetries] calls; it
    sleeps between the calls only, [maxRetries - 1] times, and the delays
    double from twice the initial delay: 2d, 4d, 8d and so on. *)
Theorem retryConnection_backoff :
  forall (attempt : nat -> bool) (maxRetries initialDelay : Z),
    1 <= maxRetries ->
    (forall j, attempt j = false) ->
    DbHelpers.retryConnection attempt maxRetries initialDelay
    = DbHelpers.mkRun false (Z.to_nat maxRetries)
        (map (fun i => initialDelay * 2 ^ Z.of_nat (S i))
           (seq 0 (Z.to_nat maxRetries - 1))).
Proof.
  intros attempt maxRetries initialDelay Hmax Hfail.
  unfold DbHelpers.retryConnection.
  destruct (Z.to_nat maxRetries) as [|r] eqn:E; [lia|].
  rewrite (retry_loop_all_fail attempt r 0 initialDelay [] Hfail).
  cbn [app]. now replace (S r - 1)%nat with r by lia.
Qed.

Lemma retryConnection_backoff_witness :
  DbHelpers.retryConnection (fun _ => false) 5 1000
  = DbHelpers.mkRun false 5 [2000; 4000; 8000; 16000].
Proof.
  exact (retryConnection_backoff (fun _ => false) 5 1000
           ltac:(lia) (fun _ => eq_refl)).
Defined.

Lemma retryConnection_connected_witness :
  DbHelpers.connected (DbHelpers.retryConnection (fun k => Nat.eqb k 2) 0 1000)
  = false /\
  DbHelpers.attempts (DbHelpers.retryConnection (fun k => Nat.eqb k 2) 0 1000)
  = 0%nat.
Proof.
  exact (proj2 (proj2 (retryConnection_connected (fun k => Nat.eqb k 2) 0 1000))
           ltac:(lia)).
Defined.
